(** * hubtty: configuration resolution and credential cache (hubtty/config.py)

    A shallow embedding of [hubtty/config.py]: the schema of the configuration
    document ([ConfigSchema]), the document locator ([Config.verifyConfigFile]),
    server selection ([Config.getServer]), the credential cache
    ([Config.getToken]) and the resolver ([Config.__init__]).

    Python objects loaded from YAML are values of type [yaml]; Python
    exceptions are values of type [exn]; code that only computes lives in the
    error monad [result], code that touches the file system, the terminal or
    the token collaborator lives in the state-and-error monad [M] over a
    [world]. *)

From stdpp Require Import gmap strings list fin_maps.
From Stdlib Require Import ZArith Ascii.

#[local] Set Warnings "-register-all".
#[local] Open Scope Z_scope.

(** ** Python values *)

(** Keys of Python dicts: hashable values up to [==] ([True == 1] and
    [False == 0] are the same key). *)
Inductive hkey :=
| HNone
| HInt (z : Z)
| HStr (s : string).

#[export] Instance hkey_eq_dec : EqDecision hkey.
Proof. solve_decision. Defined.

#[export] Instance hkey_countable : Countable hkey.
Proof.
  refine (inj_countable'
    (λ k, match k with
          | HNone => inl ()
          | HInt z => inr (inl z)
          | HStr s => inr (inr s)
          end)
    (λ x, match x with
          | inl _ => HNone
          | inr (inl z) => HInt z
          | inr (inr s) => HStr s
          end) _).
  by intros [].
Defined.

Coercion HStr : string >-> hkey.

(** What [yaml.safe_load] returns: [None], booleans, integers, strings, lists
    and dicts (floats and timestamps, which no schema below accepts, are left
    out).  The iteration order of a dict is not tracked: no code below depends
    on it. *)
Inductive yaml :=
| YNone
| YBool (b : bool)
| YInt (z : Z)
| YStr (s : string)
| YList (l : list yaml)
| YDict (d : gmap hkey yaml).

(** Python exceptions raised by the code below.  [Invalid] stands for
    voluptuous' [MultipleInvalid], [ReError] for [re.error], [AuthError] for
    whatever the token collaborator raises. *)
Inductive exn :=
| SystemExit (code : Z)
| Invalid
| KeyError (key : yaml)
| AttributeError (attr : string)
| TypeError (what : string)
| FileNotFoundError (p : string)
| IsADirectoryError (p : string)
| FileExistsError (p : string)
| ReError (pattern : string)
| AuthError (url : string).

(** Python's class hierarchy: [KeyError] (and [IndexError]) derive from
    [LookupError]; none of the others do. *)
Definition is_LookupError (e : exn) : bool :=
  match e with
  | KeyError _ => true
  | _ => false
  end.

(** ** The error monad *)

Inductive result (A : Type) :=
| Ok (a : A)
| Raise (e : exn).
Arguments Ok {A} a.
Arguments Raise {A} e.

#[export] Instance result_ret : MRet result := λ A a, Ok a.
#[export] Instance result_bind : MBind result := λ A B f m,
  match m with
  | Ok a => f a
  | Raise e => Raise e
  end.

(** ** Primitive operations on Python values *)

(** [bool(v)]: [None], [False], [0], the empty string, list and dict are
    falsy. *)
Definition truthy (v : yaml) : bool :=
  match v with
  | YNone => false
  | YBool b => b
  | YInt z => negb (Z.eqb z 0)
  | YStr s => negb (String.eqb s "")
  | YList l => match l with [] => false | _ => true end
  | YDict d => negb (bool_decide (d = ∅))
  end.

(** [a or b] *)
Definition py_or (a b : yaml) : yaml := if truthy a then a else b.

(** The key as a value: what iterating a dict yields and what a [KeyError]
    reports. *)
Definition key_value (k : hkey) : yaml :=
  match k with
  | HNone => YNone
  | HInt z => YInt z
  | HStr s => YStr s
  end.

(** [hash(v)]: lists and dicts are unhashable. *)
Definition hash_key (v : yaml) : result hkey :=
  match v with
  | YNone => Ok HNone
  | YBool b => Ok (HInt (if b then 1 else 0))
  | YInt z => Ok (HInt z)
  | YStr s => Ok (HStr s)
  | YList _ | YDict _ => Raise (TypeError "unhashable")
  end.

(** [d.get(k, default)]: only dicts have a [get] attribute. *)
Definition dict_get (d : yaml) (k : hkey) (default : yaml) : result yaml :=
  match d with
  | YDict m =>
      match m !! k with
      | Some v => Ok v
      | None => Ok default
      end
  | _ => Raise (AttributeError "get")
  end.

(** [d[k]] *)
Definition getitem (d : yaml) (k : hkey) : result yaml :=
  match d with
  | YDict m =>
      match m !! k with
      | Some v => Ok v
      | None => Raise (KeyError (key_value k))
      end
  | _ => Raise (TypeError "subscript")
  end.

(** [d[k] = v] *)
Definition setitem (d : yaml) (k : hkey) (v : yaml) : result yaml :=
  match d with
  | YDict m => Ok (YDict (<[k := v]> m))
  | _ => Raise (TypeError "item assignment")
  end.

(** [for x in v]: lists yield their elements, strings their characters and
    dicts their keys; the other values are not iterable. *)
Fixpoint chars (s : string) : list yaml :=
  match s with
  | EmptyString => []
  | String c r => YStr (String c EmptyString) :: chars r
  end.

Definition py_iter (v : yaml) : result (list yaml) :=
  match v with
  | YList l => Ok l
  | YStr s => Ok (chars s)
  | YDict d => Ok (key_value <$> (map_to_list d).*1)
  | _ => Raise (TypeError "not iterable")
  end.

(** [s == v] for a Python string [s]. *)
Definition str_eq (s : string) (v : yaml) : bool :=
  match v with
  | YStr t => String.eqb s t
  | _ => false
  end.

(** [s.endswith(suffix)] on strings. *)
Fixpoint endswith (s suffix : string) : bool :=
  if String.eqb s suffix then true
  else match s with
       | EmptyString => false
       | String _ r => endswith r suffix
       end.

(** [v.endswith('/')]; only strings have the attribute. *)
Definition py_endswith (v : yaml) (suffix : string) : result bool :=
  match v with
  | YStr s => Ok (endswith s suffix)
  | _ => Raise (AttributeError "endswith")
  end.

(** [v += '/'] after [v.endswith] succeeded. *)
Definition py_append (v : yaml) (suffix : string) : result yaml :=
  match v with
  | YStr s => Ok (YStr (s +:+ suffix))
  | _ => Raise (TypeError "+=")
  end.

(** [collections.OrderedDict]: keys in insertion order, no key twice.
    [od[k] = v] overwrites in place when [k] is present and appends
    otherwise. *)
Definition OrderedDict := list (hkey * yaml).

Fixpoint od_setitem (od : OrderedDict) (k : hkey) (v : yaml) : OrderedDict :=
  match od with
  | [] => [(k, v)]
  | (k', v') :: r =>
      if decide (k' = k) then (k', v) :: r else (k', v') :: od_setitem r k v
  end.

Fixpoint od_get (od : OrderedDict) (k : hkey) : option yaml :=
  match od with
  | [] => None
  | (k', v') :: r => if decide (k' = k) then Some v' else od_get r k
  end.

Definition od_getitem (od : OrderedDict) (k : hkey) : result yaml :=
  match od_get od k with
  | Some v => Ok v
  | None => Raise (KeyError (key_value k))
  end.

(** ** voluptuous

    The validators [ConfigSchema] is built from, as the set of values each
    accepts.  The default [extra=PREVENT_EXTRA] applies throughout: a key of
    the data that no key of a mapping schema matches is an error. *)
Module v.

Definition validator := yaml → bool.

(** A type used as a schema: [isinstance(data, type)].  In Python [bool] is
    a subclass of [int]. *)
Definition str : validator := λ x, match x with YStr _ => true | _ => false end.
Definition bool : validator := λ x, match x with YBool _ => true | _ => false end.
Definition int : validator :=
  λ x, match x with YInt _ | YBool _ => true | _ => false end.

(** A literal used as a schema: [data == literal]. *)
Definition lit (s : string) : validator := str_eq s.
Definition None : validator := λ x, match x with YNone => true | _ => false end.

(** [v.Any(a, b, ...)]: some alternative accepts. *)
Definition Any (alts : list validator) : validator :=
  λ x, existsb (λ a, a x) alts.

(** A list [[a, b, ...]] used as a schema: the data is a list and each of
    its elements is accepted by one of [a, b, ...]. *)
Definition seq (alts : list validator) : validator :=
  λ x, match x with
       | YList l => forallb (Any alts) l
       | _ => false
       end.

(** Keys of a mapping schema: [v.Required(k)], a plain [k] or
    [v.Optional(k)], and [v.Match(regex)] (given by the strings the regular
    expression matches). *)
Inductive marker :=
| Required (k : string)
| Optional (k : string)
| Match (accepts : string → Datatypes.bool).

Definition mapping_schema := list (marker * validator).

(** A literal key matches the equal key of the data; a pattern matches the
    strings it accepts ([re.match] on another value is an error, which
    [v.Match] reports as no match). *)
Definition literal_key (k : hkey) (m : marker) : Datatypes.bool :=
  match m, k with
  | (Required k' | Optional k'), HStr s => String.eqb k' s
  | _, _ => false
  end.

Definition pattern_key (k : hkey) (m : marker) : Datatypes.bool :=
  match m, k with
  | Match accepts, HStr s => accepts s
  | _, _ => false
  end.

(** One item of the data: the literal keys of the schema are tried first,
    then the patterns; the first schema key that matches decides (there is
    no backtracking), and an item no schema key matches is an extra key. *)
Definition item (s : mapping_schema) (kx : hkey * yaml) : Datatypes.bool :=
  match find (λ e, literal_key kx.1 e.1) s with
  | Some e => e.2 kx.2
  | Datatypes.None =>
      match find (λ e, pattern_key kx.1 e.1) s with
      | Some e => e.2 kx.2
      | Datatypes.None => false
      end
  end.

Definition required_present (d : gmap hkey yaml) (m : marker) : Datatypes.bool :=
  match m with
  | Required k => bool_decide (is_Some (d !! HStr k))
  | _ => true
  end.

(** A dict used as a schema. *)
Definition mapping (s : mapping_schema) : validator :=
  λ x, match x with
       | YDict d =>
           forallb (item s) (map_to_list d)
           && forallb (λ e, required_present d e.1) s
       | _ => false
       end.

End v.

(** The regular expression [(?!name)] given to [re.match]: a negative
    lookahead at the start of the key, so it matches the keys that do not
    begin with [name]. *)
Definition not_name (k : string) : bool := negb (String.prefix "name" k).

(** ** ConfigSchema (config.py, lines 42-139) *)
Module ConfigSchema.
Import v.

Definition server : validator :=
  mapping [(Required "name", str);
           (Optional "api-url", str);
           (Optional "url", str);
           (Required "username", str);
           (Optional "dburi", str);
           (Required "git-root", str);
           (Optional "git-url", str);
           (Optional "log-file", str);
           (Optional "lock-file", str);
           (Optional "socket", str)].

Definition servers : validator := seq [server].

Definition _sort_by : validator :=
  Any [lit "number"; lit "updated"; lit "last-seen"; lit "project"].
Definition sort_by : validator := Any [_sort_by; seq [_sort_by]].

Definition text_replacement : validator :=
  mapping [(Optional "text",
            Any [str;
                 mapping [(Optional "color", str);
                          (Required "text", str)]])].

Definition link_replacement : validator :=
  mapping [(Optional "link",
            mapping [(Required "url", str);
                     (Required "text", str)])].

Definition search_replacement : validator :=
  mapping [(Optional "search",
            mapping [(Required "query", str);
                     (Required "text", str)])].

Definition replacement : validator :=
  Any [text_replacement; link_replacement; search_replacement].

Definition palette : validator :=
  mapping [(Required "name", str);
           (Match not_name, seq [str])].

Definition palettes : validator := seq [palette].

Definition commentlink : validator :=
  mapping [(Required "match", str);
           (Required "replacements", seq [replacement]);
           (Optional "test-result", str)].

Definition commentlinks : validator := seq [commentlink].

Definition dashboard : validator :=
  mapping [(Required "name", str);
           (Required "query", str);
           (Optional "sort-by", sort_by);
           (Optional "reverse", bool);
           (Required "key", str)].

Definition dashboards : validator := seq [dashboard].

Definition reviewkey_approval : validator :=
  mapping [(Required "category", str);
           (Required "value", int)].

Definition reviewkey : validator :=
  mapping [(Required "approvals", seq [reviewkey_approval]);
           (Optional "message", str);
           (Optional "submit", bool);
           (Required "key", str)].

Definition reviewkeys : validator := seq [reviewkey].

Definition hide_comment : validator := mapping [(Required "author", str)].

Definition hide_comments : validator := seq [hide_comment].

Definition change_list_options : validator :=
  mapping [(Optional "sort-by", sort_by);
           (Optional "reverse", bool)].

Definition keymap : validator :=
  mapping [(Required "name", str);
           (Match not_name, Any [seq [seq [str]; str]; seq [str]; str])].

Definition keymaps : validator := seq [keymap].

Definition thresholds : validator := seq [int; int; int; int; int; int; int; int].

Definition size_column : validator :=
  mapping [(Required "type",
            Any [lit "graph"; lit "split-graph"; lit "number";
                 lit "disabled"; None]);
           (Optional "thresholds", thresholds)].

Definition getSchema : validator :=
  mapping [(Required "servers", servers);
           (Optional "palettes", palettes);
           (Optional "palette", str);
           (Optional "keymaps", keymaps);
           (Optional "keymap", str);
           (Optional "commentlinks", commentlinks);
           (Optional "dashboards", dashboards);
           (Optional "reviewkeys", reviewkeys);
           (Optional "change-list-query", str);
           (Optional "diff-view", str);
           (Optional "hide-comments", hide_comments);
           (Optional "thread-changes", bool);
           (Optional "display-times-in-utc", bool);
           (Optional "handle-mouse", bool);
           (Optional "breadcrumbs", bool);
           (Optional "close-change-on-review", bool);
           (Optional "change-list-options", change_list_options);
           (Optional "expire-age", str);
           (Optional "size-column", size_column)].

End ConfigSchema.

(** ** The world: file system and observable events *)

(** A regular file holds YAML text: [None] is the empty file, [Some y] the
    text [yaml.dump(y)], which [yaml.safe_load] reads back as [y].  Failing
    disks, permissions and ancestors of a directory are not modelled. *)
Record file := mkfile { content : option yaml; mode : Z }.

Inductive node :=
| Directory
| Regular (f : file).

(** What the run does besides returning: text printed, a document handed to
    the schema, a token requested from the collaborator. *)
Inductive event :=
| EvPrint (text : string)
| EvSchema (data : yaml)
| EvAcquire (url : yaml).

Record world := mkworld { fs : gmap string node; trace : list event }.

(** State and exceptions: a computation runs in a world and returns a value
    or raises, and leaves a world behind either way. *)
Definition M (A : Type) : Type := world → result A * world.

#[export] Instance M_ret : MRet M := λ A a w, (Ok a, w).
#[export] Instance M_bind : MBind M := λ A B f m w,
  match m w with
  | (Ok a, w') => f a w'
  | (Raise e, w') => (Raise e, w')
  end.

Definition lift {A} (r : result A) : M A := λ w, (r, w).
Definition raise {A} (e : exn) : M A := λ w, (Raise e, w).
Definition emit (e : event) : M () :=
  λ w, (Ok (), {| fs := fs w; trace := trace w ++ [e] |}).
Definition set_node (p : string) (n : node) : M () :=
  λ w, (Ok (), {| fs := <[p := n]> (fs w); trace := trace w |}).
Definition stat (p : string) : M (option node) := λ w, (Ok (fs w !! p), w).

(** What the code takes from outside this file: [os.path], [re], Python's
    [str()], the process [umask], the modules [hubtty.commentlink] and
    [hubtty.auth], and the built-in tables of [hubtty.palette] and
    [hubtty.keymap].  [CommentLink] is [hubtty.commentlink.CommentLink(config)],
    which may raise.  [auth_getToken] is [hubtty.auth.getToken(url)]: it is
    interactive, so what it returns may depend on what has happened before,
    and it may raise. *)
Class Environment := {
  expanduser : string → string;
  dirname : string → string;
  umask : Z;
  py_str : yaml → string;
  regex : Type;
  re_compile : string → result regex;
  commentlink : Type;
  CommentLink : yaml → result commentlink;
  auth_getToken : yaml → list event → result string;
  DEFAULT_PALETTE : gmap hkey yaml;
  LIGHT_PALETTE : gmap hkey yaml;
  DEFAULT_KEYMAP : gmap hkey yaml;
  VI_KEYMAP : gmap hkey yaml;
}.

Section os.
Context `{Environment}.

(** [os.path.exists(p)] *)
Definition os_path_exists (p : string) : M bool :=
  n ← stat p; mret (bool_decide (is_Some n)).

(** [os.path.expanduser(v)] *)
Definition os_path_expanduser (x : yaml) : result string :=
  match x with
  | YStr s => Ok (expanduser s)
  | _ => Raise (TypeError "expanduser")
  end.

(** [os.makedirs(d, exist_ok=True)] *)
Definition os_makedirs (d : string) : M () :=
  n ← stat d;
  match n with
  | Some Directory => mret ()
  | Some (Regular _) => raise (FileExistsError d)
  | None => set_node d Directory
  end.

(** [open(p, 'w+')]: creates the file or truncates it to the empty file;
    the handle is the path. *)
Definition open_w_plus (p : string) : M string :=
  n ← stat p;
  match n with
  | Some Directory => raise (IsADirectoryError p)
  | Some (Regular f) =>
      set_node p (Regular {| content := None; mode := mode f |});; mret p
  | None =>
      d ← stat (dirname p);
      match d with
      | Some Directory =>
          set_node p (Regular {| content := None;
                                 mode := Z.ldiff 438 umask |});;
          mret p
      | _ => raise (FileNotFoundError p)
      end
  end.

(** [yaml.safe_load(f)] on a handle at the start of the file; the empty
    document loads as [None]. *)
Definition yaml_safe_load (f : string) : M yaml :=
  n ← stat f;
  match n with
  | Some (Regular x) => mret (default YNone (content x))
  | Some Directory => raise (IsADirectoryError f)
  | None => raise (FileNotFoundError f)
  end.

(** [yaml.safe_load(open(p))] *)
Definition yaml_safe_load_open (p : string) : M yaml := yaml_safe_load p.

(** [yaml.dump(data, f)].  The handle is at the end of the file; the only
    caller has opened the file with ['w+'] and read it to the end, so the
    file is empty there and its text becomes the dump. *)
Definition yaml_dump (data : yaml) (f : string) : M () :=
  n ← stat f;
  match n with
  | Some (Regular x) => set_node f (Regular {| content := Some data; mode := mode x |})
  | Some Directory => raise (IsADirectoryError f)
  | None => raise (FileNotFoundError f)
  end.

(** [os.chmod(p, m)] *)
Definition os_chmod (p : string) (m : Z) : M () :=
  n ← stat p;
  match n with
  | Some (Regular x) => set_node p (Regular {| content := content x; mode := m |})
  | Some Directory => mret ()
  | None => raise (FileNotFoundError p)
  end.

(** [print(text)] and [sys.exit(code)] *)
Definition print (text : string) : M () := emit (EvPrint text).
Definition sys_exit {A} (code : Z) : M A := raise (SystemExit code).

(** [hubtty.auth.getToken(url)] *)
Definition hubtty_auth_getToken (url : yaml) : M yaml :=
  λ w, (match auth_getToken url (trace w) with
        | Ok token => Ok (YStr token)
        | Raise e => Raise e
        end,
        {| fs := fs w; trace := trace w ++ [EvAcquire url] |}).

(** ['...%s...' % x] *)
Definition percent_s (x : yaml) : string :=
  match x with
  | YStr s => s
  | _ => py_str x
  end.

(** [re.compile(x)] *)
Definition py_re_compile (x : yaml) : result regex :=
  match x with
  | YStr s => re_compile s
  | _ => Raise (TypeError "re.compile")
  end.

End os.

(** ** hubtty.palette and hubtty.keymap *)

Section named_entries.
Context `{Environment}.

(** Modelled from the spec: [hubtty.palette.Palette]; [hubtty/palette.py]
    is not among the sources.  A palette is a mapping from keys to values.
    [update(config)] is the spec's shallow merge: keys present in the
    incoming entry overwrite, keys absent are untouched.  [Palette(config)]
    is the built-in base table with [config] merged into it, so that
    [Palette({})] is the built-in empty palette. *)
Definition Palette_update (self : gmap hkey yaml) (config : yaml)
  : result (gmap hkey yaml) :=
  match config with
  | YDict d => Ok (d ∪ self)
  | _ => Raise (AttributeError "copy")
  end.

Definition Palette (config : yaml) : result (gmap hkey yaml) :=
  Palette_update DEFAULT_PALETTE config.

(** Modelled from the spec: [hubtty.keymap.KeyMap]; [hubtty/keymap.py] is
    not among the sources.  Same shape and same shallow merge as a
    palette, over the built-in base keymap. *)
Definition KeyMap_update (self : gmap hkey yaml) (config : yaml)
  : result (gmap hkey yaml) :=
  match config with
  | YDict d => Ok (d ∪ self)
  | _ => Raise (AttributeError "copy")
  end.

Definition KeyMap (config : yaml) : result (gmap hkey yaml) :=
  KeyMap_update DEFAULT_KEYMAP config.

End named_entries.

(** ** Config (config.py, lines 141-283) *)

Definition DEFAULT_CONFIG_PATH := "~/.config/hubtty/hubtty.yaml".
Definition DEFAULT_SECURE_PATH := "~/.config/hubtty/hubtty_auth.yaml".
Definition FALLBACK_CONFIG_PATH := "~/.hubtty.yaml".

Module Config.
Section Config.
Context `{Environment}.

(** The attributes [__init__] sets on [self]. *)
Record self := mkself {
  path : string;
  config : yaml;
  server : yaml;
  api_url : yaml;
  url : yaml;
  username : yaml;
  token : yaml;
  git_root : string;
  git_url : yaml;
  dburi : yaml;
  socket_path : string;
  log_file : string;
  lock_file : string;
  palettes : gmap hkey (gmap hkey yaml);
  palette : gmap hkey yaml;
  keymaps : gmap hkey (gmap hkey yaml);
  keymap : gmap hkey yaml;
  commentlinks : list commentlink;
  project_change_list_query : yaml;
  diff_view : yaml;
  dashboards : OrderedDict;
  reviewkeys : OrderedDict;
  hide_comments : list regex;
  thread_changes : yaml;
  utc : yaml;
  breadcrumbs : yaml;
  close_change_on_review : yaml;
  handle_mouse : yaml;
  change_list_options : gmap hkey yaml;
  expire_age : yaml;
  size_column : yaml;
}.

(** *** printSample (lines 275-283) *)
Definition printSample : M () :=
  let filename := "share/hubtty/examples" in
  print ("Hubtty requires a configuration file at " +:+ DEFAULT_CONFIG_PATH
         +:+ " or " +:+ FALLBACK_CONFIG_PATH +:+ "

Several sample configuration files were installed with Hubtty and are
available in " +:+ filename +:+ " in the root of the installation.

For more information, please see the README.
").

(** *** verifyConfigFile (lines 243-250) *)
Fixpoint verifyConfigFile_for (checkpaths : list (option string))
  : M (option string) :=
  match checkpaths with
  | [] => mret None
  | checkpath :: rest =>
      match checkpath with
      | Some checkpath =>
          let expandedpath := expanduser checkpath in
          e ← os_path_exists expandedpath;
          if e : bool then mret (Some expandedpath)
          else verifyConfigFile_for rest
      | None => verifyConfigFile_for rest
      end
  end.

Definition verifyConfigFile (path : option string) : M string :=
  found ← verifyConfigFile_for
            [path; Some DEFAULT_CONFIG_PATH; Some FALLBACK_CONFIG_PATH];
  match found with
  | Some expandedpath => mret expandedpath
  | None => printSample;; sys_exit 1
  end.

(** *** getServer (lines 252-256); [None] is returned as [YNone]. *)
Fixpoint getServer_for (name : option string) (servers : list yaml)
  : result yaml :=
  match servers with
  | [] => Ok YNone
  | server :: rest =>
      match name with
      | None => Ok server
      | Some n =>
          sname ← getitem server "name";
          if str_eq n sname then Ok server else getServer_for name rest
      end
  end.

Definition getServer (config : yaml) (name : option string) : result yaml :=
  servers ← getitem config "servers";
  servers ← py_iter servers;
  getServer_for name servers.

(** *** getToken (lines 258-272) *)
Definition getToken (name : yaml) (url : yaml) : M yaml :=
  let path := expanduser DEFAULT_SECURE_PATH in
  os_makedirs (dirname path);;
  f ← open_w_plus path;
  loaded ← yaml_safe_load f;
  let auth := py_or loaded (YDict ∅) in
  conf ← lift (match auth with
               | YDict _ => k ← hash_key name; dict_get auth k (YDict ∅)
               | _ => Raise (AttributeError "get")
               end);
  token ← lift (dict_get conf "token" YNone);
  token ← (if negb (truthy token) then
             token ← hubtty_auth_getToken url;
             conf ← lift (setitem conf "token" token);
             auth ← lift (k ← hash_key name; setitem auth k conf);
             yaml_dump auth f;;
             mret token
           else mret token);
  os_chmod path 384;;
  mret token.

(** *** __init__ (lines 142-241) *)

(** [x[k]] for a dict of palettes or keymaps. *)
Definition named_getitem (d : gmap hkey (gmap hkey yaml)) (k : yaml)
  : result (gmap hkey yaml) :=
  h ← hash_key k;
  match d !! h with
  | Some x => Ok x
  | None => Raise (KeyError k)
  end.

(** Lines 178-182. *)
Fixpoint palettes_for (ps : list yaml) (palettes : gmap hkey (gmap hkey yaml))
  : result (gmap hkey (gmap hkey yaml)) :=
  match ps with
  | [] => Ok palettes
  | p :: rest =>
      name ← getitem p "name";
      name ← hash_key name;
      palettes ← match palettes !! name with
                 | None =>
                     new ← Palette p; Ok (<[name := new]> palettes)
                 | Some old =>
                     upd ← Palette_update old p; Ok (<[name := upd]> palettes)
                 end;
      palettes_for rest palettes
  end.

(** Lines 175-183. *)
Definition init_palettes (config : yaml) (palette : string)
  : result (gmap hkey (gmap hkey yaml) * gmap hkey yaml) :=
  default ← Palette (YDict ∅);
  light ← Palette (YDict LIGHT_PALETTE);
  let palettes : gmap hkey (gmap hkey yaml) :=
    <[HStr "light" := light]> (<[HStr "default" := default]> ∅) in
  ps ← dict_get config "palettes" (YList []);
  ps ← py_iter ps;
  palettes ← palettes_for ps palettes;
  selected ← dict_get config "palette" (YStr palette);
  palette ← named_getitem palettes selected;
  Ok (palettes, palette).

(** Lines 187-191. *)
Fixpoint keymaps_for (ps : list yaml) (keymaps : gmap hkey (gmap hkey yaml))
  : result (gmap hkey (gmap hkey yaml)) :=
  match ps with
  | [] => Ok keymaps
  | p :: rest =>
      name ← getitem p "name";
      name ← hash_key name;
      keymaps ← match keymaps !! name with
                | None =>
                    new ← KeyMap p; Ok (<[name := new]> keymaps)
                | Some old =>
                    upd ← KeyMap_update old p; Ok (<[name := upd]> keymaps)
                end;
      keymaps_for rest keymaps
  end.

(** Lines 185-192. *)
Definition init_keymaps (config : yaml) (keymap : string)
  : result (gmap hkey (gmap hkey yaml) * gmap hkey yaml) :=
  default ← KeyMap (YDict ∅);
  vi ← KeyMap (YDict VI_KEYMAP);
  let keymaps : gmap hkey (gmap hkey yaml) :=
    <[HStr "vi" := vi]> (<[HStr "default" := default]> ∅) in
  ps ← dict_get config "keymaps" (YList []);
  ps ← py_iter ps;
  keymaps ← keymaps_for ps keymaps;
  selected ← dict_get config "keymap" (YStr keymap);
  keymap ← named_getitem keymaps selected;
  Ok (keymaps, keymap).

(** The rule of lines 197-202: a bare URL becomes a link. *)
Definition bare_url_rule : yaml :=
  YDict (<[HStr "match" := YStr "(?P<url>https?://\S*)"]>
         (<[HStr "replacements" :=
              YList [YDict (<[HStr "link" :=
                                YDict (<[HStr "text" := YStr "{url}"]>
                                       (<[HStr "url" := YStr "{url}"]> ∅))]> ∅)]]>
          ∅)).

(** Lines 194-195: the list comprehension. *)
Fixpoint commentlinks_for (cs : list yaml) : result (list commentlink) :=
  match cs with
  | [] => Ok []
  | c :: rest =>
      link ← CommentLink c;
      links ← commentlinks_for rest;
      Ok (link :: links)
  end.

(** Lines 194-202. *)
Definition init_commentlinks (config : yaml) : result (list commentlink) :=
  cs ← dict_get config "commentlinks" (YList []);
  cs ← py_iter cs;
  commentlinks ← commentlinks_for cs;
  bare ← CommentLink bare_url_rule;
  Ok (commentlinks ++ [bare]).

(** Lines 209-211. *)
Fixpoint dashboards_for (ds : list yaml) (dashboards : OrderedDict)
  : result OrderedDict :=
  match ds with
  | [] => Ok dashboards
  | d :: rest =>
      key ← getitem d "key";
      key ← hash_key key;
      let dashboards := od_setitem dashboards key d in
      key' ← getitem d "key";
      key' ← hash_key key';
      od_getitem dashboards key';;
      dashboards_for rest dashboards
  end.

(** Lines 208-211. *)
Definition init_dashboards (config : yaml) : result OrderedDict :=
  ds ← dict_get config "dashboards" (YList []);
  ds ← py_iter ds;
  dashboards_for ds [].

(** Lines 214-215. *)
Fixpoint reviewkeys_for (ks : list yaml) (reviewkeys : OrderedDict)
  : result OrderedDict :=
  match ks with
  | [] => Ok reviewkeys
  | k :: rest =>
      key ← getitem k "key";
      key ← hash_key key;
      reviewkeys_for rest (od_setitem reviewkeys key k)
  end.

(** Lines 213-215. *)
Definition init_reviewkeys (config : yaml) : result OrderedDict :=
  ks ← dict_get config "reviewkeys" (YList []);
  ks ← py_iter ks;
  reviewkeys_for ks [].

(** Lines 218-219. *)
Fixpoint hide_comments_for (hs : list yaml) (hide_comments : list regex)
  : result (list regex) :=
  match hs with
  | [] => Ok hide_comments
  | h :: rest =>
      author ← getitem h "author";
      r ← py_re_compile author;
      hide_comments_for rest (hide_comments ++ [r])
  end.

(** Lines 217-219. *)
Definition init_hide_comments (config : yaml) : result (list regex) :=
  hs ← dict_get config "hide-comments" (YList []);
  hs ← py_iter hs;
  hide_comments_for hs [].

(** Lines 227-230. *)
Definition init_change_list_options (config : yaml) : result (gmap hkey yaml) :=
  change_list_options ← dict_get config "change-list-options" (YDict ∅);
  sort_by ← dict_get change_list_options "sort-by" (YStr "number");
  reverse ← dict_get change_list_options "reverse" (YBool false);
  Ok (<[HStr "reverse" := reverse]> (<[HStr "sort-by" := sort_by]> ∅)).

(** Lines 234-241. *)
Definition init_size_column (config : yaml) : result yaml :=
  size_column ← dict_get config "size-column" (YDict ∅);
  type ← dict_get size_column "type" (YStr "graph");
  size_column ← setitem size_column "type" type;
  type ← getitem size_column "type";
  if str_eq "graph" type then
    thresholds ← dict_get size_column "thresholds"
                   (YList [YInt 1; YInt 10; YInt 100; YInt 1000]);
    setitem size_column "thresholds" thresholds
  else
    thresholds ← dict_get size_column "thresholds"
                   (YList [YInt 1; YInt 10; YInt 100; YInt 200; YInt 400;
                           YInt 600; YInt 800; YInt 1000]);
    setitem size_column "thresholds" thresholds.

(** The dict that [self.size_column] names is the one inside [self.config]
    when the document has a [size-column] section: the assignments of lines
    235-241 then show in [self.config] too. *)
Definition alias_size_column (config size_column : yaml) : yaml :=
  match config with
  | YDict d =>
      match d !! HStr "size-column" with
      | Some _ => YDict (<[HStr "size-column" := size_column]> d)
      | None => config
      end
  | _ => config
  end.

(** Lines 149-241: what [__init__] does with the located path and the
    document the schema has accepted. *)
Definition init_resolve (path : string) (config : yaml)
    (server : option string) (palette keymap : string) : M self :=
  server ← lift (getServer config server);
  api_url ← lift (dict_get server "api_url" (YStr "https://api.github.com/"));
  slash ← lift (py_endswith api_url "/");
  api_url ← lift (if negb slash then py_append api_url "/" else Ok api_url);
  url ← lift (dict_get server "url" (YStr "https://github.com/"));
  slash ← lift (py_endswith url "/");
  url ← lift (if negb slash then py_append url "/" else Ok url);
  username ← lift (getitem server "username");
  name ← lift (getitem server "name");
  token ← getToken name url;
  git_root ← lift (getitem server "git-root" ≫= os_path_expanduser);
  git_url ← lift (dict_get server "git-url" (YStr "https://github.com/"));
  slash ← lift (py_endswith git_url "/");
  git_url ← lift (if negb slash then py_append git_url "/" else Ok git_url);
  dburi ← lift (dict_get server "dburi"
                  (YStr ("sqlite:///" +:+ expanduser "~/.hubtty.db")));
  socket_path ← lift (dict_get server "socket" (YStr "~/.hubtty.sock")
                      ≫= os_path_expanduser);
  log_file ← lift (dict_get server "log-file" (YStr "~/.hubtty.log")
                   ≫= os_path_expanduser);
  name ← lift (getitem server "name");
  lock_file ← lift (dict_get server "lock-file"
                      (YStr ("~/.hubtty." +:+ percent_s name +:+ ".lock"))
                    ≫= os_path_expanduser);
  '(palettes, palette) ← lift (init_palettes config palette);
  '(keymaps, keymap) ← lift (init_keymaps config keymap);
  commentlinks ← lift (init_commentlinks config);
  project_change_list_query ←
    lift (dict_get config "change-list-query" (YStr "status:open"));
  diff_view ← lift (dict_get config "diff-view" (YStr "side-by-side"));
  dashboards ← lift (init_dashboards config);
  reviewkeys ← lift (init_reviewkeys config);
  hide_comments ← lift (init_hide_comments config);
  thread_changes ← lift (dict_get config "thread-changes" (YBool true));
  utc ← lift (dict_get config "display-times-in-utc" (YBool false));
  breadcrumbs ← lift (dict_get config "breadcrumbs" (YBool true));
  close_change_on_review ←
    lift (dict_get config "close-change-on-review" (YBool false));
  handle_mouse ← lift (dict_get config "handle-mouse" (YBool true));
  change_list_options ← lift (init_change_list_options config);
  expire_age ← lift (dict_get config "expire-age" (YStr "2 months"));
  size_column ← lift (init_size_column config);
  mret {| path := path;
          config := alias_size_column config size_column;
          server := server;
          api_url := api_url;
          url := url;
          username := username;
          token := token;
          git_root := git_root;
          git_url := git_url;
          dburi := dburi;
          socket_path := socket_path;
          log_file := log_file;
          lock_file := lock_file;
          palettes := palettes;
          palette := palette;
          keymaps := keymaps;
          keymap := keymap;
          commentlinks := commentlinks;
          project_change_list_query := project_change_list_query;
          diff_view := diff_view;
          dashboards := dashboards;
          reviewkeys := reviewkeys;
          hide_comments := hide_comments;
          thread_changes := thread_changes;
          utc := utc;
          breadcrumbs := breadcrumbs;
          close_change_on_review := close_change_on_review;
          handle_mouse := handle_mouse;
          change_list_options := change_list_options;
          expire_age := expire_age;
          size_column := size_column |}.

(** [schema(self.config)], lines 147-148. *)
Definition schema (config : yaml) : M () :=
  emit (EvSchema config);;
  if ConfigSchema.getSchema config then mret () else raise Invalid.

(** [Config(server, palette, keymap, path)]; the defaults of the signature
    are [None], ['default'], ['default'] and [None]. *)
Definition init (server : option string) (palette keymap : string)
    (path : option string) : M self :=
  path ← verifyConfigFile path;
  config ← yaml_safe_load_open path;
  schema config;;
  init_resolve path config server palette keymap.

End Config.
End Config.


(** ** Vocabulary of the statements *)

(** A URL with its trailing slash: [/] appended when it is not there. *)
Definition slashed (s : string) : string :=
  if endswith s "/" then s else s +:+ "/".

(** The names of the profiles of a document. *)
Definition server_names (config : yaml) : list yaml :=
  match config with
  | YDict m =>
      match m !! HStr "servers" with
      | Some (YList l) =>
          omap (λ s, match s with
                     | YDict d => d !! HStr "name"
                     | _ => None
                     end) l
      | _ => []
      end
  | _ => []
  end.

Definition has_server (name : string) (config : yaml) : bool :=
  existsb (str_eq name) (server_names config).

(** What the credential file holds: [None] when there is no such file. *)
Definition persisted `{Environment} (w : world) : option file :=
  match fs w !! expanduser DEFAULT_SECURE_PATH with
  | Some (Regular f) => Some f
  | _ => None
  end.

(** The requests made to the token collaborator during a run. *)
Definition acquisitions (tr : list event) : list yaml :=
  omap (λ e, match e with EvAcquire url => Some url | _ => None end) tr.

(** The list under [key] in a document, empty when the key is not there. *)
Definition entries (config : yaml) (key : string) : list yaml :=
  match config with
  | YDict m =>
      match m !! HStr key with
      | Some (YList l) => l
      | _ => []
      end
  | _ => []
  end.

(** The type the document gives for the size column, if any. *)
Definition document_type (config : yaml) : option yaml :=
  match config with
  | YDict m =>
      match m !! HStr "size-column" with
      | Some (YDict d) => d !! HStr "type"
      | _ => None
      end
  | _ => None
  end.

(** The thresholds the document gives for the size column, if any. *)
Definition document_thresholds (config : yaml) : option yaml :=
  match config with
  | YDict m =>
      match m !! HStr "size-column" with
      | Some (YDict d) => d !! HStr "thresholds"
      | _ => None
      end
  | _ => None
  end.

(** [d['key']] as a key of an [OrderedDict], and the entries with a given
    key. *)
Definition entry_key (d : yaml) : result hkey := getitem d "key" ≫= hash_key.

Definition has_key (k : hkey) (d : yaml) : bool :=
  match entry_key d with
  | Ok k' => bool_decide (k' = k)
  | Raise _ => false
  end.

(** The keys of a sequence, each at the place of its first occurrence
    ([remove_dups] keeps the last occurrence of each element). *)
Definition first_occurrences (ks : list hkey) : list hkey :=
  reverse (remove_dups (reverse ks)).

(** [od] is what the entries [ds] give when a later entry overwrites the
    value of an earlier one with the same key and leaves the key where it
    is: the keys of [od] are the keys of [ds] in the order of their first
    occurrences, and the value under a key is the last entry that has it. *)
Definition overwritten_in_place (ds : list yaml) (od : OrderedDict) : Prop :=
  ∃ ks, Forall2 (λ d k, entry_key d = Ok k) ds ks
        ∧ od.*1 = first_occurrences ks
        ∧ ∀ k, od_get od k = last (List.filter (has_key k) ds).

(** [p['name']] as a key of the dict of palettes or keymaps, and the entries
    with a given name, in document order. *)
Definition entry_name (p : yaml) : result hkey := getitem p "name" ≫= hash_key.

Definition named (k : hkey) (ps : list yaml) : list (gmap hkey yaml) :=
  omap (λ p, match p, entry_name p with
             | YDict d, Ok k' => if decide (k' = k) then Some d else None
             | _, _ => None
             end) ps.

(** The shallow merge of entries into a base, one after the other: the keys
    of an entry overwrite, the others stay. *)
Definition overlay (base : gmap hkey yaml) (ds : list (gmap hkey yaml))
  : gmap hkey yaml :=
  foldl (λ acc d, d ∪ acc) base ds.

(** The loops of lines 178-182 and 187-191 are one loop, over the built-in
    base table of palettes or of keymaps. *)
Definition merge (old : gmap hkey yaml) (p : yaml) : result (gmap hkey yaml) :=
  match p with
  | YDict d => Ok (d ∪ old)
  | _ => Raise (AttributeError "copy")
  end.

Section merge_for.
Variable base : gmap hkey yaml.

Fixpoint merge_for (ps : list yaml) (table : gmap hkey (gmap hkey yaml))
  : result (gmap hkey (gmap hkey yaml)) :=
  match ps with
  | [] => Ok table
  | p :: rest =>
      name ← getitem p "name";
      name ← hash_key name;
      table ← match table !! name with
              | None => new ← merge base p; Ok (<[name := new]> table)
              | Some old => upd ← merge old p; Ok (<[name := upd]> table)
              end;
      merge_for rest table
  end.

End merge_for.

(** Whether a run has returned. *)
Definition is_Ok {A} (r : result A) : bool :=
  match r with
  | Ok _ => true
  | Raise _ => false
  end.

(** ** Concrete inputs *)

(** A dict from its items. *)
Definition dict (items : list (string * yaml)) : yaml :=
  YDict (list_to_map (prod_map HStr id <$> items)).

(** A home directory, a parent-directory function for absolute paths, and a
    collaborator that hands out a new token at each request. *)
Definition example_expanduser (p : string) : string :=
  match p with
  | String "~"%char r => "/home/alice" +:+ r
  | _ => p
  end.

Fixpoint example_dirname_go (p : string) : option string :=
  match p with
  | EmptyString => None
  | String c r =>
      match example_dirname_go r with
      | Some d => Some (String c d)
      | None => if Ascii.eqb c "/"%char then Some EmptyString else None
      end
  end.

Definition example_dirname (p : string) : string :=
  default EmptyString (example_dirname_go p).

Definition example_auth_getToken (url : yaml) (tr : list event) : result string :=
  match acquisitions tr with
  | [] => Ok "first-token"
  | _ => Ok "second-token"
  end.

Definition example_env : Environment := {|
  expanduser := example_expanduser;
  dirname := example_dirname;
  umask := 18;
  py_str := λ _, "?";
  regex := string;
  re_compile := λ s, Ok s;
  commentlink := yaml;
  CommentLink := λ c, Ok c;
  auth_getToken := example_auth_getToken;
  DEFAULT_PALETTE := {[ HStr "header" := YList [YStr "white"; YStr "black"];
                        HStr "footer" := YList [YStr "white"; YStr "black"] ]};
  LIGHT_PALETTE := {[ HStr "header" := YList [YStr "black"; YStr "white"] ]};
  DEFAULT_KEYMAP := {[ HStr "quit" := YStr "ctrl q" ]};
  VI_KEYMAP := {[ HStr "up" := YStr "k" ]};
|}.

Definition example_server : yaml :=
  dict [("name", YStr "github");
        ("username", YStr "alice");
        ("git-root", YStr "~/git");
        ("api-url", YStr "https://ghe.example.com/api/v3");
        ("url", YStr "https://ghe.example.com");
        ("git-url", YStr "https://git.example.com/")].

(** A document that overrides one colour of the default palette, adds a
    keymap, has two comment-link rules, three dashboards of which the third
    repeats the key of the first, two review shortcuts with one key, and a
    size column without thresholds. *)
Definition example_palette : gmap hkey yaml :=
  list_to_map [(HStr "name", YStr "default");
               (HStr "header", YList [YStr "yellow"; YStr "black"])].

Definition example_keymap : gmap hkey yaml :=
  list_to_map [(HStr "name", YStr "emacs");
               (HStr "next", YList [YStr "ctrl n"])].

Definition example_rule (pattern : string) : yaml :=
  dict [("match", YStr pattern);
        ("replacements", YList [dict [("text", YStr "{id}")]])].

Definition example_dashboard (name key : string) : yaml :=
  dict [("name", YStr name); ("query", YStr "is:open"); ("key", YStr key)].

Definition example_reviewkey (message key : string) : yaml :=
  dict [("approvals", YList []); ("message", YStr message); ("key", YStr key)].

Definition example_config : yaml :=
  dict [("servers", YList [example_server]);
        ("palettes", YList [YDict example_palette]);
        ("keymaps", YList [YDict example_keymap]);
        ("commentlinks", YList [example_rule "bug (?P<id>\d+)";
                                example_rule "#(?P<id>\d+)"]);
        ("dashboards", YList [example_dashboard "mine" "f2";
                              example_dashboard "team" "f3";
                              example_dashboard "all" "f2"]);
        ("reviewkeys", YList [example_reviewkey "ok" "meta 1";
                              example_reviewkey "fine" "meta 1"]);
        ("size-column", dict [("type", YStr "number")])].

(** No file anywhere, and the document at the legacy path. *)
Definition empty_world : world := {| fs := ∅; trace := [] |}.

Definition example_world : world :=
  {| fs := {[ "/home/alice/.hubtty.yaml" :=
                Regular {| content := Some example_config; mode := 420 |} ]};
     trace := [] |}.

(** A credential file that already holds tokens for two servers. *)
Definition cached_world : world :=
  {| fs := {[ "/home/alice/.config/hubtty" := Directory;
              "/home/alice/.config/hubtty/hubtty_auth.yaml" :=
                Regular {| content :=
                             Some (dict [("github",
                                          dict [("token", YStr "cached-token")]);
                                         ("other",
                                          dict [("token", YStr "other-token")])]);
                           mode := 384 |} ]};
     trace := [] |}.


(** The worlds after a first and after a second request of the token of
    [github], starting with no credential file, and after one request
    starting from the credential file above. *)
Definition example_url : yaml := YStr "https://github.com/".

Definition after_first : world :=
  snd (Config.getToken (H := example_env) (YStr "github") example_url
         empty_world).

Definition after_second : world :=
  snd (Config.getToken (H := example_env) (YStr "github") example_url
         after_first).

Definition after_cached : world :=
  snd (Config.getToken (H := example_env) (YStr "github") example_url
         cached_world).

(** ** Further vocabulary and inputs *)














(** * Properties *)

(** ** Running computations *)

Lemma result_bind_Ok {A B} (m : result A) (f : A → result B) (b : B) :
  m ≫= f = Ok b → ∃ a, m = Ok a ∧ f a = Ok b.
Proof. destruct m as [a|e]; [eauto | discriminate 1]. Qed.

Lemma M_bind_Ok {A B} (m : M A) (f : A → M B) (w w' : world) (b : B) :
  (m ≫= f) w = (Ok b, w') → ∃ a w1, m w = (Ok a, w1) ∧ f a w1 = (Ok b, w').
Proof.
  unfold mbind, M_bind. destruct (m w) as [[a|e] w1]; [eauto | discriminate].
Qed.

Lemma lift_Ok {A} (r : result A) (w w' : world) (a : A) :
  lift r w = (Ok a, w') → r = Ok a ∧ w' = w.
Proof. unfold lift. intros [= -> ->]. done. Qed.

Lemma M_bind_run {A B} (m : M A) (f : A → M B) (w w1 : world) (a : A) :
  m w = (Ok a, w1) → (m ≫= f) w = f a w1.
Proof. unfold mbind, M_bind. by intros ->. Qed.

Lemma M_bind_lift {A B} (r : result A) (f : A → M B) (w : world) (a : A) :
  r = Ok a → (lift r ≫= f) w = f a w.
Proof. by intros ->. Qed.

Lemma M_bind_raise {A B} (m : M A) (f : A → M B) (w w1 : world) (e : exn) :
  m w = (Raise e, w1) → (m ≫= f) w = (Raise e, w1).
Proof. unfold mbind, M_bind. by intros ->. Qed.

(** A run is known by what it returns and the world it leaves. *)
Lemma run_Ok {A} (x : result A * world) (a : A) :
  fst x = Ok a → x = (Ok a, snd x).
Proof. destruct x as [r w]. by intros [= ->]. Qed.

(** A successful run [Hrun] of [m ≫= f] splits into a successful run of [m]
    and one of [f]: in [M], for a lifted [m], and in [result]. *)
Tactic Notation "step_M" hyp(Hrun) "as" ident(a) ident(w) ident(E) :=
  apply M_bind_Ok in Hrun as (a & w & E & Hrun).

Tactic Notation "step_lift" hyp(Hrun) "as" ident(a) ident(E) :=
  let w := fresh "w" in
  apply M_bind_Ok in Hrun as (a & w & E & Hrun);
  apply lift_Ok in E as [E ->].

Tactic Notation "step_result" hyp(Hrun) "as" ident(a) ident(E) :=
  apply result_bind_Ok in Hrun as (a & E & Hrun).

(** ** Strings *)



(** ** The credential store *)

Section credential_store.
Context `{Environment}.

Lemma stat_run {B} (p : string) (f : option node → M B) (w : world) :
  (stat p ≫= f) w = f (fs w !! p) w.
Proof. done. Qed.

Lemma os_makedirs_Ok (d : string) (w w' : world) (u : ()) :
  os_makedirs d w = (Ok u, w') → trace w' = trace w.
Proof.
  unfold os_makedirs. rewrite stat_run.
  destruct (fs w !! d) as [[|f]|]; [| done |]; by intros [= _ <-].
Qed.

(** Whatever the file held, it is empty once [open(p, 'w+')] has returned. *)
Lemma open_w_plus_Ok (p : string) (w w' : world) (f : string) :
  open_w_plus p w = (Ok f, w') →
  f = p ∧ trace w' = trace w ∧
  ∃ m, fs w' !! p = Some (Regular {| content := None; mode := m |}).
Proof.
  unfold open_w_plus. rewrite stat_run.
  destruct (fs w !! p) as [[|x]|].
  - done.
  - intros [= <- <-]. simpl. rewrite lookup_insert_eq. eauto.
  - rewrite stat_run. destruct (fs w !! dirname p) as [[|y]|]; [| done..].
    intros [= <- <-]. simpl. rewrite lookup_insert_eq. eauto.
Qed.

Lemma acquisitions_snoc (tr : list event) (url : yaml) :
  acquisitions (tr ++ [EvAcquire url]) = acquisitions tr ++ [url].
Proof. unfold acquisitions. by rewrite omap_app. Qed.

(** A call that returns has found the file empty, has asked the collaborator
    and has written the one entry it built. *)
Lemma getToken_Ok (name url : yaml) (w w' : world) (tok : yaml) :
  Config.getToken name url w = (Ok tok, w') →
  ∃ t k,
    auth_getToken url (trace w) = Ok t ∧ tok = YStr t ∧
    hash_key name = Ok k ∧
    trace w' = trace w ++ [EvAcquire url] ∧
    fs w' !! expanduser DEFAULT_SECURE_PATH =
      Some (Regular {| content :=
                         Some (YDict {[ k := YDict {[ HStr "token" := YStr t ]} ]});
                       mode := 384 |}).
Proof.
  unfold Config.getToken. intros Hrun.
  step_M Hrun as u w1 Hmk. apply os_makedirs_Ok in Hmk as Htr1.
  step_M Hrun as f w2 Hopen.
  apply open_w_plus_Ok in Hopen as (-> & Htr2 & m & Hfile).
  set (path := expanduser DEFAULT_SECURE_PATH) in *.
  unfold yaml_safe_load in Hrun.
  rewrite M_bind_run with (a := YNone) (w1 := w2) in Hrun
    by (by rewrite stat_run, Hfile).
  change (py_or YNone (YDict ∅)) with (YDict ∅) in Hrun.
  step_lift Hrun as conf Hconf. step_result Hconf as k Hk.
  cbn in Hconf. injection Hconf as <-.
  change (dict_get (YDict ∅) "token" YNone) with (Ok YNone) in Hrun.
  rewrite M_bind_lift with (a := YNone) in Hrun by done.
  change (negb (truthy YNone)) with true in Hrun. cbv iota in Hrun.
  step_M Hrun as tok' w3 Hacq. step_M Hacq as t' w4 Hget.
  unfold hubtty_auth_getToken in Hget.
  destruct (auth_getToken url (trace w2)) as [t|e] eqn:Hcol; [|done].
  injection Hget as <- <-.
  cbn [setitem] in Hacq.
  rewrite M_bind_lift with (a := YDict {[ HStr "token" := YStr t ]}) in Hacq
    by done.
  rewrite Hk in Hacq. cbn in Hacq.
  rewrite M_bind_lift
    with (a := YDict {[ k := YDict {[ HStr "token" := YStr t ]} ]}) in Hacq
    by done.
  step_M Hacq as u' w5 Hdump. injection Hacq as <- <-.
  unfold yaml_dump in Hdump. rewrite stat_run in Hdump. cbn [fs] in Hdump.
  rewrite Hfile in Hdump. injection Hdump as <- <-.
  step_M Hrun as u'' w6 Hch. injection Hrun as <- <-.
  unfold os_chmod in Hch. rewrite stat_run in Hch. cbn [fs] in Hch.
  rewrite lookup_insert_eq in Hch. injection Hch as <- <-.
  exists t, k. cbn [trace fs]. rewrite lookup_insert_eq.
  rewrite <- Htr1, <- Htr2. done.
Qed.


(** C1 (the code departs from it): the claim has a second [getToken] for the
    same server return the persisted token without asking the collaborator.
    In the code every call that returns has asked the collaborator: after two
    calls in a row it has been asked twice, and the second call returns the
    collaborator's second answer. *)
Theorem C1_second_getToken_asks_again (name url : yaml) (w w1 w2 : world)
    (tok1 tok2 : yaml) :
  Config.getToken name url w = (Ok tok1, w1) →
  Config.getToken name url w1 = (Ok tok2, w2) →
  acquisitions (trace w2) = acquisitions (trace w) ++ [url; url]
  ∧ ∃ t2, auth_getToken url (trace w1) = Ok t2 ∧ tok2 = YStr t2.
Proof.
  intros (t1 & k1 & _ & _ & _ & Htr1 & _)%getToken_Ok.
  intros (t2 & k2 & Hcol & -> & _ & Htr2 & _)%getToken_Ok.
  split; [|by eauto].
  rewrite Htr2, Htr1, !acquisitions_snoc, <- (assoc_L (++)). done.
Qed.

(** C3: a call of [getToken] that returns has asked the collaborator for a
    fresh token, and leaves a credential file with exactly one entry, the one
    for [name] with that token, readable by its owner only: whatever the file
    held for other servers is gone. *)
Theorem C3_getToken_leaves_one_entry (name url : yaml) (w w' : world)
    (tok : yaml) :
  Config.getToken name url w = (Ok tok, w') →
  ∃ t k auth,
    auth_getToken url (trace w) = Ok t ∧ tok = YStr t
    ∧ hash_key name = Ok k
    ∧ persisted w' = Some {| content := Some (YDict auth); mode := 384 |}
    ∧ auth !! k = Some (YDict {[ HStr "token" := YStr t ]})
    ∧ ∀ k', k' ≠ k → auth !! k' = None.
Proof.
  intros (t & k & Hcol & -> & Hk & _ & Hfile)%getToken_Ok.
  exists t, k, {[ k := YDict {[ HStr "token" := YStr t ]} ]}.
  unfold persisted. rewrite Hfile. split_and!; try done.
  - apply lookup_singleton_eq.
  - intros k' Hne. by apply lookup_singleton_ne.
Qed.

End credential_store.

Lemma C1_second_getToken_asks_again_witness :
  let H := example_env in
  (Config.getToken (YStr "github") example_url empty_world
   = (Ok (YStr "first-token"), after_first)
   ∧ Config.getToken (YStr "github") example_url after_first
     = (Ok (YStr "second-token"), after_second))
  ∧ acquisitions (trace after_second)
    = acquisitions (trace empty_world) ++ [example_url; example_url]
  ∧ ∃ t2, auth_getToken example_url (trace after_first) = Ok t2
          ∧ YStr "second-token" = YStr t2.
Proof.
  intros H.
  assert (Config.getToken (YStr "github") example_url empty_world
          = (Ok (YStr "first-token"), after_first)) as H1
    by (apply run_Ok; vm_compute; reflexivity).
  assert (Config.getToken (YStr "github") example_url after_first
          = (Ok (YStr "second-token"), after_second)) as H2
    by (apply run_Ok; vm_compute; reflexivity).
  split; [by split|].
  exact (C1_second_getToken_asks_again _ _ _ _ _ _ _ H1 H2).
Defined.

Lemma C3_getToken_leaves_one_entry_witness :
  let H := example_env in
  Config.getToken (YStr "github") example_url cached_world
  = (Ok (YStr "first-token"), after_cached)
  ∧ ∃ t k auth,
      auth_getToken example_url (trace cached_world) = Ok t
      ∧ YStr "first-token" = YStr t
      ∧ hash_key (YStr "github") = Ok k
      ∧ persisted after_cached
        = Some {| content := Some (YDict auth); mode := 384 |}
      ∧ auth !! k = Some (YDict {[ HStr "token" := YStr t ]})
      ∧ ∀ k', k' ≠ k → auth !! k' = None.
Proof.
  intros H.
  assert (Config.getToken (YStr "github") example_url cached_world
          = (Ok (YStr "first-token"), after_cached)) as H1
    by (apply run_Ok; vm_compute; reflexivity).
  split; [exact H1|].
  exact (C3_getToken_leaves_one_entry _ _ _ _ _ H1).
Defined.

(** ** What the schema guarantees *)

Ltac in_schema :=
  by repeat first [apply list_elem_of_here | apply list_elem_of_further].

Lemma mapping_inv (s : v.mapping_schema) (x : yaml) :
  v.mapping s x = true →
  ∃ d, x = YDict d
       ∧ (∀ k y, d !! k = Some y → v.item s (k, y) = true)
       ∧ (∀ k a, (v.Required k, a) ∈ s → is_Some (d !! HStr k)).
Proof.
  destruct x as [| | | | |d]; try done. simpl.
  intros [Hitems Hreq]%andb_prop. exists d. split_and!; [done|..].
  - intros k y Hk. rewrite forallb_forall in Hitems. apply Hitems.
    apply list_elem_of_In. by apply elem_of_map_to_list.
  - intros k a Hk. rewrite forallb_forall in Hreq.
    apply list_elem_of_In, Hreq in Hk. simpl in Hk.
    by apply bool_decide_eq_true in Hk.
Qed.

Lemma seq_inv (alts : list v.validator) (x : yaml) :
  v.seq alts x = true →
  ∃ l, x = YList l ∧ ∀ y, y ∈ l → v.Any alts y = true.
Proof.
  destruct x as [| | | |l|]; try done. simpl. intros Hall.
  exists l. split; [done|]. intros y Hy.
  rewrite forallb_forall in Hall. by apply Hall, list_elem_of_In.
Qed.

Lemma Any_one (a : v.validator) (x : yaml) : v.Any [a] x = true → a x = true.
Proof. unfold v.Any. simpl. by rewrite orb_false_r. Qed.

Lemma seq_one_inv (a : v.validator) (x : yaml) :
  v.seq [a] x = true → ∃ l, x = YList l ∧ ∀ y, y ∈ l → a y = true.
Proof.
  intros (l & -> & Hl)%seq_inv. exists l. split; [done|].
  intros y Hy. by apply Any_one, Hl.
Qed.

Lemma str_inv (x : yaml) : v.str x = true → ∃ s, x = YStr s.
Proof. destruct x; try done. eauto. Qed.

Lemma schema_servers (config : yaml) :
  ConfigSchema.getSchema config = true →
  ∃ m l, config = YDict m ∧ m !! HStr "servers" = Some (YList l)
         ∧ ∀ s, s ∈ l → ConfigSchema.server s = true.
Proof.
  intros (m & -> & Hitems & Hreq)%mapping_inv.
  destruct (Hreq "servers" ConfigSchema.servers) as [x Hx]; [in_schema|].
  apply Hitems in Hx as Hs.
  change (ConfigSchema.servers x = true) in Hs.
  apply seq_one_inv in Hs as (l & -> & Hl). by exists m, l.
Qed.

(** A profile the schema accepts has a string for [name], [username] and
    [git-root], strings for whatever else it has, and no key [api_url]: the
    schema spells that key [api-url]. *)
Lemma schema_server (s : yaml) :
  ConfigSchema.server s = true →
  ∃ d n u g, s = YDict d
    ∧ d !! HStr "name" = Some (YStr n)
    ∧ d !! HStr "username" = Some (YStr u)
    ∧ d !! HStr "git-root" = Some (YStr g)
    ∧ d !! HStr "api_url" = None
    ∧ ∀ k y, d !! k = Some y → ∃ t, y = YStr t.
Proof.
  intros (d & -> & Hitems & Hreq)%mapping_inv.
  destruct (Hreq "name" v.str) as [n Hn]; [in_schema|].
  destruct (Hreq "username" v.str) as [u Hu]; [in_schema|].
  destruct (Hreq "git-root" v.str) as [g Hg]; [in_schema|].
  apply Hitems in Hn as Hn'. change (v.str n = true) in Hn'.
  apply str_inv in Hn' as [n' ->].
  apply Hitems in Hu as Hu'. change (v.str u = true) in Hu'.
  apply str_inv in Hu' as [u' ->].
  apply Hitems in Hg as Hg'. change (v.str g = true) in Hg'.
  apply str_inv in Hg' as [g' ->].
  exists d, n', u', g'. split_and!; try done.
  - destruct (d !! HStr "api_url") as [y|] eqn:Hy; [|done].
    by apply Hitems in Hy.
  - intros k y Hk. apply Hitems in Hk. apply str_inv.
    unfold v.item in Hk. simpl in Hk.
    repeat (case_match; simplify_eq; try done).
Qed.

(** ** Resolution *)

Section resolve.
Context `{Environment}.

Lemma normalise_Ok (x : yaml) (slash : bool) (y : yaml) :
  py_endswith x "/" = Ok slash →
  (if negb slash then py_append x "/" else Ok x) = Ok y →
  ∃ s, x = YStr s ∧ y = YStr (slashed s).
Proof.
  destruct x as [| | |s| |]; try done. simpl. intros [= <-]. unfold slashed.
  exists s. destruct (endswith s "/"); simpl in *; by simplify_eq.
Qed.

(** A run of [init_resolve] that returns, taken apart. *)
Lemma init_resolve_Ok (path : string) (config : yaml) (server : option string)
    (palette keymap : string) (w w' : world) (cfg : Config.self) :
  Config.init_resolve path config server palette keymap w = (Ok cfg, w') →
  Config.getServer config server = Ok (Config.server cfg)
  ∧ (∃ s, dict_get (Config.server cfg) "api_url"
            (YStr "https://api.github.com/") = Ok (YStr s)
          ∧ Config.api_url cfg = YStr (slashed s))
  ∧ (∃ s, dict_get (Config.server cfg) "url"
            (YStr "https://github.com/") = Ok (YStr s)
          ∧ Config.url cfg = YStr (slashed s))
  ∧ (∃ s, dict_get (Config.server cfg) "git-url"
            (YStr "https://github.com/") = Ok (YStr s)
          ∧ Config.git_url cfg = YStr (slashed s))
  ∧ (∃ name, getitem (Config.server cfg) "name" = Ok name
          ∧ Config.getToken name (Config.url cfg) w = (Ok (Config.token cfg), w'))
  ∧ Config.init_palettes config palette
    = Ok (Config.palettes cfg, Config.palette cfg)
  ∧ Config.init_keymaps config keymap
    = Ok (Config.keymaps cfg, Config.keymap cfg)
  ∧ Config.init_commentlinks config = Ok (Config.commentlinks cfg)
  ∧ Config.init_dashboards config = Ok (Config.dashboards cfg)
  ∧ Config.init_reviewkeys config = Ok (Config.reviewkeys cfg)
  ∧ Config.init_size_column config = Ok (Config.size_column cfg).
Proof.
  unfold Config.init_resolve. intros Hrun.
  step_lift Hrun as srv Hsrv.
  step_lift Hrun as api0 Hapi0. step_lift Hrun as sl1 Hsl1.
  step_lift Hrun as api Hapi.
  step_lift Hrun as url0 Hurl0. step_lift Hrun as sl2 Hsl2.
  step_lift Hrun as url Hurl.
  step_lift Hrun as username Huser. step_lift Hrun as name Hname.
  step_M Hrun as token w1 Htoken.
  step_lift Hrun as git_root Hroot.
  step_lift Hrun as git0 Hgit0. step_lift Hrun as sl3 Hsl3.
  step_lift Hrun as git Hgit.
  step_lift Hrun as dburi Hdburi. step_lift Hrun as socket Hsocket.
  step_lift Hrun as log Hlog. step_lift Hrun as name' Hname'.
  step_lift Hrun as lock Hlock.
  step_lift Hrun as pals Hpals. destruct pals as [pals pal].
  step_lift Hrun as kms Hkms. destruct kms as [kms km].
  step_lift Hrun as links Hlinks.
  step_lift Hrun as query Hquery. step_lift Hrun as diff Hdiff.
  step_lift Hrun as dash Hdash. step_lift Hrun as rkeys Hrkeys.
  step_lift Hrun as hide Hhide.
  step_lift Hrun as thread Hthread. step_lift Hrun as utc Hutc.
  step_lift Hrun as crumbs Hcrumbs. step_lift Hrun as close Hclose.
  step_lift Hrun as mouse Hmouse. step_lift Hrun as clo Hclo.
  step_lift Hrun as age Hage. step_lift Hrun as size Hsize.
  injection Hrun as <- <-. simpl.
  destruct (normalise_Ok _ _ _ Hsl1 Hapi) as (s1 & -> & ->).
  destruct (normalise_Ok _ _ _ Hsl2 Hurl) as (s2 & -> & ->).
  destruct (normalise_Ok _ _ _ Hsl3 Hgit) as (s3 & -> & ->).
  split_and!; eauto 10.
Qed.

Lemma getServer_for_elem (name : option string) (l : list yaml) (srv : yaml) :
  Config.getServer_for name l = Ok srv → srv = YNone ∨ srv ∈ l.
Proof.
  induction l as [|s l IH]; simpl.
  - intros [= <-]. by left.
  - destruct name as [n|].
    + intros Hrun. step_result Hrun as sname Hsname.
      destruct (str_eq n sname).
      * injection Hrun as <-. right. left.
      * destruct (IH Hrun) as [->|?]; [by left | right; by right].
    + intros [= <-]. right. left.
Qed.

(** The selected profile of an accepted document is one of its profiles, or
    [None]. *)
Lemma getServer_Ok (config : yaml) (name : option string) (srv : yaml) :
  ConfigSchema.getSchema config = true →
  Config.getServer config name = Ok srv →
  srv = YNone ∨ ConfigSchema.server srv = true.
Proof.
  intros (m & l & -> & Hm & Hl)%schema_servers.
  unfold Config.getServer. simpl. rewrite Hm. simpl.
  intros [->|Hin]%getServer_for_elem; [by left | right; by apply Hl].
Qed.

Lemma getServer_for_absent (name : string) (l : list yaml) :
  (∀ s, s ∈ l → ConfigSchema.server s = true) →
  existsb (str_eq name)
    (omap (λ s, match s with
                | YDict d => d !! HStr "name"
                | _ => None
                end) l) = false →
  Config.getServer_for (Some name) l = Ok YNone.
Proof.
  induction l as [|s l IH]; [done|]. intros Hl.
  destruct (schema_server s) as (d & n & u & g & -> & Hn & _);
    [apply Hl; left|].
  simpl. rewrite Hn. simpl. intros [-> Hrest]%orb_false_elim.
  apply IH; [|done]. intros s Hs. apply Hl. by right.
Qed.

(** The URL and the git URL of the selected profile get their trailing
    slash. *)
Lemma url_and_git_url_slashed (path : string) (config : yaml)
    (server : option string) (palette keymap : string) (w w' : world)
    (cfg : Config.self) :
  Config.init_resolve path config server palette keymap w = (Ok cfg, w') →
  ∃ d, Config.server cfg = YDict d
    ∧ (∀ s, d !! HStr "url" = Some (YStr s) → Config.url cfg = YStr (slashed s))
    ∧ (∀ s, d !! HStr "git-url" = Some (YStr s) →
            Config.git_url cfg = YStr (slashed s)).
Proof.
  intros (_ & _ & (s2 & Hurl & ->) & (s3 & Hgit & ->) & _)%init_resolve_Ok.
  destruct (Config.server cfg) as [| | | | |d]; try done.
  exists d. split; [done|]. simpl in *. split; intros s Hs; rewrite Hs in *; congruence.
Qed.

(** C2 (the code departs from it): the claim has the document's [api-url]
    resolved with a trailing slash, like [url] and [git-url].  The code reads
    the key [api_url], which no accepted profile can have, so for every
    accepted document the resolved API URL is the built-in one, whatever the
    document says under [api-url]. *)
Theorem C2_api_url_of_document_ignored (path : string) (config : yaml)
    (server : option string) (palette keymap : string) (w w' : world)
    (cfg : Config.self) :
  ConfigSchema.getSchema config = true →
  Config.init_resolve path config server palette keymap w = (Ok cfg, w') →
  Config.api_url cfg = YStr "https://api.github.com/".
Proof.
  intros Hvalid (Hsrv & (s & Hget & ->) & _)%init_resolve_Ok.
  destruct (getServer_Ok _ _ _ Hvalid Hsrv) as [Hnone|Hs].
  - by rewrite Hnone in Hget.
  - apply schema_server in Hs as (d & n & u & g & Hd & _ & _ & _ & Hapi & _).
    rewrite Hd in Hget. simpl in Hget. rewrite Hapi in Hget.
    by injection Hget as <-.
Qed.

(** C4, as amended: for every accepted document, when a server name is
    requested and no profile has it, [getServer] returns [None] and
    resolution stops at once with an [AttributeError] (not a [LookupError]),
    before anything is asked of the collaborator or written; it does not fall
    back to the first server. *)
Theorem C4_unknown_server_AttributeError (path : string) (config : yaml)
    (name palette keymap : string) (w : world) :
  ConfigSchema.getSchema config = true →
  has_server name config = false →
  Config.getServer config (Some name) = Ok YNone
  ∧ Config.init_resolve path config (Some name) palette keymap w
    = (Raise (AttributeError "get"), w).
Proof.
  intros (m & l & -> & Hm & Hl)%schema_servers Habsent.
  unfold has_server, server_names in Habsent. rewrite Hm in Habsent.
  assert (Config.getServer (YDict m) (Some name) = Ok YNone) as Hsrv.
  { unfold Config.getServer. simpl. rewrite Hm. simpl.
    by apply getServer_for_absent. }
  split; [done|]. unfold Config.init_resolve.
  by rewrite M_bind_lift with (a := YNone).
Qed.

End resolve.

Lemma C2_api_url_of_document_ignored_witness :
  let H := example_env in
  (ConfigSchema.getSchema example_config = true
   ∧ getitem example_server "api-url" = Ok (YStr "https://ghe.example.com/api/v3"))
  ∧ ∃ cfg w',
      Config.init_resolve "/home/alice/.hubtty.yaml" example_config None
        "default" "default" example_world = (Ok cfg, w')
      ∧ Config.api_url cfg = YStr "https://api.github.com/".
Proof.
  intros H.
  assert (ConfigSchema.getSchema example_config = true) as Hvalid
    by (vm_compute; reflexivity).
  split; [split; [exact Hvalid | vm_compute; reflexivity]|].
  destruct (Config.init_resolve "/home/alice/.hubtty.yaml" example_config None
              "default" "default" example_world) as [[cfg|e] w'] eqn:Hrun.
  - exists cfg, w'. split; [done|].
    exact (C2_api_url_of_document_ignored _ _ _ _ _ _ _ _ Hvalid Hrun).
  - exfalso.
    assert (is_Ok (fst (Config.init_resolve "/home/alice/.hubtty.yaml"
                          example_config None "default" "default"
                          example_world)) = true) as Hok
      by (vm_compute; reflexivity).
    rewrite Hrun in Hok. discriminate Hok.
Defined.

Lemma C4_unknown_server_AttributeError_witness :
  let H := example_env in
  (ConfigSchema.getSchema example_config = true
   ∧ has_server "gitlab" example_config = false)
  ∧ Config.getServer example_config (Some "gitlab") = Ok YNone
  ∧ Config.init_resolve "/home/alice/.hubtty.yaml" example_config
      (Some "gitlab") "default" "default" example_world
    = (Raise (AttributeError "get"), example_world).
Proof.
  intros H.
  assert (ConfigSchema.getSchema example_config = true) as Hvalid
    by (vm_compute; reflexivity).
  assert (has_server "gitlab" example_config = false) as Habsent
    by (vm_compute; reflexivity).
  split; [by split|].
  exact (C4_unknown_server_AttributeError _ _ _ _ _ _ Hvalid Habsent).
Defined.

(** C4, as the claim has it, fails: the document is accepted, no profile is
    named [gitlab], and the run ends with an [AttributeError], which is not a
    [LookupError]. *)
Lemma C4_counterexample :
  let H := example_env in
  ConfigSchema.getSchema example_config = true
  ∧ has_server "gitlab" example_config = false
  ∧ fst (Config.init (Some "gitlab") "default" "default" None example_world)
    = Raise (AttributeError "get")
  ∧ ¬ ∃ e w', Config.init (Some "gitlab") "default" "default" None example_world
              = (Raise e, w')
              ∧ is_LookupError e = true.
Proof.
  intros H.
  assert (fst (Config.init (Some "gitlab") "default" "default" None example_world)
          = Raise (AttributeError "get")) as Hfst
    by (vm_compute; reflexivity).
  split; [vm_compute; reflexivity|].
  split; [vm_compute; reflexivity|].
  split; [exact Hfst|].
  intros (e & w' & Hrun & Hlookup). rewrite Hrun in Hfst. simpl in Hfst.
  injection Hfst as ->. discriminate Hlookup.
Qed.

(** ** The document locator *)

Section locator.
Context `{Environment}.

(** The loop returns the first candidate that exists, expanded, and leaves
    the world as it is. *)
Lemma verifyConfigFile_for_find (checkpaths : list (option string)) (w : world) :
  Config.verifyConfigFile_for checkpaths w
  = (Ok (expanduser <$>
           find (λ c, bool_decide (is_Some (fs w !! expanduser c)))
                (omap id checkpaths)), w).
Proof.
  induction checkpaths as [|[c|] rest IH]; simpl; [done| |done].
  unfold os_path_exists.
  change ((stat (expanduser c) ≫= λ n, mret (bool_decide (is_Some n))) ≫= ?f)
    with (λ w, f (bool_decide (is_Some (fs w !! expanduser c))) w).
  simpl. destruct (bool_decide (is_Some (fs w !! expanduser c))); [done|].
  apply IH.
Qed.


(** C6: of the explicit path (when given), the default path and the legacy
    path, in this order, [verifyConfigFile] returns the first that exists once
    expanded; when none exists, [Config(...)] prints the guidance of
    [printSample] (the two paths a configuration file is looked for at, and
    where the sample files are) and ends with [SystemExit(1)], a non-zero
    status, and nothing else has happened: no document was handed to the
    schema. *)
Theorem C6_locator (server : option string) (palette keymap : string)
    (path : option string) (w : world) :
  let found :=
    find (λ c, bool_decide (is_Some (fs w !! expanduser c)))
         (omap id [path; Some DEFAULT_CONFIG_PATH; Some FALLBACK_CONFIG_PATH]) in
  (∀ c, found = Some c →
        Config.verifyConfigFile path w = (Ok (expanduser c), w))
  ∧ (found = None →
     Config.init server palette keymap path w
     = (Raise (SystemExit 1),
        {| fs := fs w;
           trace := trace w ++ [EvPrint
"Hubtty requires a configuration file at ~/.config/hubtty/hubtty.yaml or ~/.hubtty.yaml

Several sample configuration files were installed with Hubtty and are
available in share/hubtty/examples in the root of the installation.

For more information, please see the README.
"] |})).
Proof.
  intros found. split.
  - intros c Hc. unfold Config.verifyConfigFile.
    erewrite M_bind_run by apply verifyConfigFile_for_find.
    fold found. by rewrite Hc.
  - intros Hnone. unfold Config.init.
    apply M_bind_raise. unfold Config.verifyConfigFile.
    erewrite M_bind_run by apply verifyConfigFile_for_find.
    fold found. rewrite Hnone. reflexivity.
Qed.

End locator.

Lemma C6_locator_witness :
  let H := example_env in
  expanduser FALLBACK_CONFIG_PATH = "/home/alice/.hubtty.yaml"
  ∧ Config.verifyConfigFile None example_world
    = (Ok (expanduser FALLBACK_CONFIG_PATH), example_world)
  ∧ Config.init None "default" "default" (Some "~/missing.yaml") empty_world
    = (Raise (SystemExit 1),
       {| fs := fs empty_world;
          trace := trace empty_world ++ [EvPrint
"Hubtty requires a configuration file at ~/.config/hubtty/hubtty.yaml or ~/.hubtty.yaml

Several sample configuration files were installed with Hubtty and are
available in share/hubtty/examples in the root of the installation.

For more information, please see the README.
"] |}).
Proof.
  intros H. split; [reflexivity|]. split.
  - apply (proj1 (C6_locator None "default" "default" None example_world)
             FALLBACK_CONFIG_PATH).
    vm_compute; reflexivity.
  - apply (proj2 (C6_locator None "default" "default" (Some "~/missing.yaml")
                    empty_world)).
    vm_compute; reflexivity.
Defined.

(** ** The lists of an accepted document *)

(** For a key whose schema is a list of [entry]: reading the key, with the
    empty list as default, and iterating gives [entries config key], and each
    entry is one the schema accepts. *)
Ltac list_of_entries list_schema :=
  let m := fresh "m" in let Hitems := fresh "Hitems" in
  let x := fresh "x" in let Hx := fresh "Hx" in let Hs := fresh "Hs" in
  let l := fresh "l" in let Hl := fresh "Hl" in
  intros (m & -> & Hitems & _)%mapping_inv; unfold entries; simpl;
  match goal with
  | |- context [m !! ?k] => destruct (m !! k) as [x|] eqn:Hx
  end;
  [ apply Hitems in Hx as Hs; change (list_schema x = true) in Hs;
    apply seq_one_inv in Hs as (l & -> & Hl); by split
  | split; [done | by intros ? ?%elem_of_nil] ].

Lemma schema_palettes (config : yaml) :
  ConfigSchema.getSchema config = true →
  dict_get config "palettes" (YList []) ≫= py_iter
  = Ok (entries config "palettes")
  ∧ ∀ p, p ∈ entries config "palettes" → ConfigSchema.palette p = true.
Proof. list_of_entries ConfigSchema.palettes. Qed.

Lemma schema_keymaps (config : yaml) :
  ConfigSchema.getSchema config = true →
  dict_get config "keymaps" (YList []) ≫= py_iter
  = Ok (entries config "keymaps")
  ∧ ∀ p, p ∈ entries config "keymaps" → ConfigSchema.keymap p = true.
Proof. list_of_entries ConfigSchema.keymaps. Qed.

Lemma schema_commentlinks (config : yaml) :
  ConfigSchema.getSchema config = true →
  dict_get config "commentlinks" (YList []) ≫= py_iter
  = Ok (entries config "commentlinks")
  ∧ ∀ c, c ∈ entries config "commentlinks" → ConfigSchema.commentlink c = true.
Proof. list_of_entries ConfigSchema.commentlinks. Qed.

Lemma schema_dashboards (config : yaml) :
  ConfigSchema.getSchema config = true →
  dict_get config "dashboards" (YList []) ≫= py_iter
  = Ok (entries config "dashboards")
  ∧ ∀ d, d ∈ entries config "dashboards" → ConfigSchema.dashboard d = true.
Proof. list_of_entries ConfigSchema.dashboards. Qed.

Lemma schema_reviewkeys (config : yaml) :
  ConfigSchema.getSchema config = true →
  dict_get config "reviewkeys" (YList []) ≫= py_iter
  = Ok (entries config "reviewkeys")
  ∧ ∀ k, k ∈ entries config "reviewkeys" → ConfigSchema.reviewkey k = true.
Proof. list_of_entries ConfigSchema.reviewkeys. Qed.


Lemma schema_keymap (p : yaml) :
  ConfigSchema.keymap p = true →
  ∃ d n, p = YDict d ∧ d !! HStr "name" = Some (YStr n).
Proof.
  intros (d & -> & Hitems & Hreq)%mapping_inv.
  destruct (Hreq "name" v.str) as [n Hn]; [in_schema|].
  apply Hitems in Hn as Hn'. change (v.str n = true) in Hn'.
  apply str_inv in Hn' as [n' ->]. by exists d, n'.
Qed.

(** ** Dashboards and review shortcuts *)

Lemma od_setitem_keys_old (od : OrderedDict) (k : hkey) (x : yaml) :
  k ∈ od.*1 → (od_setitem od k x).*1 = od.*1.
Proof.
  induction od as [|[k' x'] od IH]; [by intros ?%elem_of_nil|].
  intros Hin. cbn [od_setitem].
  destruct (decide (k' = k)) as [->|Hne]; [done|].
  rewrite !fmap_cons, IH; [done|].
  apply elem_of_cons in Hin as [->|Hin]; done.
Qed.

Lemma od_setitem_keys_new (od : OrderedDict) (k : hkey) (x : yaml) :
  k ∉ od.*1 → (od_setitem od k x).*1 = od.*1 ++ [k].
Proof.
  induction od as [|[k' x'] od IH]; [done|].
  intros Hout. cbn [od_setitem]. apply not_elem_of_cons in Hout as [Hne Hout].
  rewrite decide_False by done. by rewrite !fmap_cons, IH.
Qed.

Lemma od_get_setitem (od : OrderedDict) (k k' : hkey) (x : yaml) :
  od_get (od_setitem od k x) k'
  = if decide (k = k') then Some x else od_get od k'.
Proof.
  induction od as [|[k0 x0] od IH]; simpl.
  - destruct (decide (k = k')); by simplify_eq.
  - destruct (decide (k0 = k)) as [->|Hne]; simpl.
    + destruct (decide (k = k')); by simplify_eq.
    + destruct (decide (k0 = k')) as [->|Hne'].
      * by rewrite decide_False by done.
      * apply IH.
Qed.

Lemma first_occurrences_snoc (ks : list hkey) (k : hkey) :
  first_occurrences (ks ++ [k])
  = if decide (k ∈ ks) then first_occurrences ks
    else first_occurrences ks ++ [k].
Proof.
  unfold first_occurrences. rewrite reverse_snoc. cbn [remove_dups].
  destruct (decide_rel elem_of k (reverse ks)) as [Hin|Hout];
    rewrite elem_of_reverse in *; case_decide; try done.
  by rewrite reverse_cons.
Qed.

Lemma elem_of_first_occurrences (ks : list hkey) (k : hkey) :
  k ∈ first_occurrences ks ↔ k ∈ ks.
Proof.
  unfold first_occurrences.
  by rewrite elem_of_reverse, elem_of_remove_dups, elem_of_reverse.
Qed.

Lemma overwritten_in_place_nil : overwritten_in_place [] [].
Proof. exists []. split_and!; [constructor | done | done]. Qed.

(** One more entry: its key is overwritten where it stands, or appended. *)
Lemma overwritten_in_place_snoc (ds : list yaml) (od : OrderedDict) (d : yaml)
    (k : hkey) :
  overwritten_in_place ds od → entry_key d = Ok k →
  overwritten_in_place (ds ++ [d]) (od_setitem od k d).
Proof.
  intros (ks & Hks & Hkeys & Hvals) Hk. exists (ks ++ [k]). split_and!.
  - apply Forall2_app; [done|]. by repeat constructor.
  - rewrite first_occurrences_snoc.
    destruct (decide (k ∈ ks)) as [Hin|Hout].
    + rewrite od_setitem_keys_old; [done|].
      by rewrite Hkeys, elem_of_first_occurrences.
    + rewrite od_setitem_keys_new; [by rewrite Hkeys|].
      by rewrite Hkeys, elem_of_first_occurrences.
  - intros k'. rewrite od_get_setitem, List.filter_app, Hvals.
    assert (has_key k' d = bool_decide (k = k')) as Hd
      by (unfold has_key; by rewrite Hk).
    cbn [List.filter]. rewrite Hd.
    destruct (decide (k = k')) as [->|Hne].
    + rewrite bool_decide_eq_true_2 by done. by rewrite last_snoc.
    + rewrite bool_decide_eq_false_2 by done. by rewrite app_nil_r.
Qed.

Section ordered.
Context `{Environment}.

Lemma reviewkeys_for_Ok (ks seen : list yaml) (od0 od : OrderedDict) :
  overwritten_in_place seen od0 →
  Config.reviewkeys_for ks od0 = Ok od →
  overwritten_in_place (seen ++ ks) od.
Proof.
  revert seen od0.
  induction ks as [|k ks IH]; simpl; intros seen od0 Hseen Hrun.
  - injection Hrun as <-. by rewrite app_nil_r.
  - step_result Hrun as key Hkey. step_result Hrun as hk Hhk.
    rewrite (assoc_L (++) seen [k] ks : seen ++ k :: ks = (seen ++ [k]) ++ ks).
    apply (IH _ _ (overwritten_in_place_snoc _ _ k hk Hseen
                     ltac:(unfold entry_key; by rewrite Hkey)) Hrun).
Qed.

Lemma dashboards_for_Ok (ds seen : list yaml) (od0 od : OrderedDict) :
  overwritten_in_place seen od0 →
  Config.dashboards_for ds od0 = Ok od →
  overwritten_in_place (seen ++ ds) od.
Proof.
  revert seen od0.
  induction ds as [|d ds IH]; simpl; intros seen od0 Hseen Hrun.
  - injection Hrun as <-. by rewrite app_nil_r.
  - step_result Hrun as key Hkey. step_result Hrun as hk Hhk.
    step_result Hrun as key' Hkey'. step_result Hrun as hk' Hhk'.
    step_result Hrun as x Hx.
    rewrite (assoc_L (++) seen [d] ds : seen ++ d :: ds = (seen ++ [d]) ++ ds).
    apply (IH _ _ (overwritten_in_place_snoc _ _ d hk Hseen
                     ltac:(unfold entry_key; by rewrite Hkey)) Hrun).
Qed.

Lemma init_dashboards_Ok (config : yaml) (od : OrderedDict) :
  ConfigSchema.getSchema config = true →
  Config.init_dashboards config = Ok od →
  overwritten_in_place (entries config "dashboards") od.
Proof.
  intros [Hds _]%schema_dashboards Hrun. unfold Config.init_dashboards in Hrun.
  step_result Hrun as a Ha. step_result Hrun as l Hl.
  rewrite Ha in Hds. cbn [mbind result_bind] in Hds. rewrite Hl in Hds.
  injection Hds as ->.
  apply (dashboards_for_Ok _ [] [] od overwritten_in_place_nil Hrun).
Qed.

Lemma init_reviewkeys_Ok (config : yaml) (od : OrderedDict) :
  ConfigSchema.getSchema config = true →
  Config.init_reviewkeys config = Ok od →
  overwritten_in_place (entries config "reviewkeys") od.
Proof.
  intros [Hks _]%schema_reviewkeys Hrun. unfold Config.init_reviewkeys in Hrun.
  step_result Hrun as a Ha. step_result Hrun as l Hl.
  rewrite Ha in Hks. cbn [mbind result_bind] in Hks. rewrite Hl in Hks.
  injection Hks as ->.
  apply (reviewkeys_for_Ok _ [] [] od overwritten_in_place_nil Hrun).
Qed.

(** C5: in the resolved dashboards and in the resolved review shortcuts, the
    keys stand in the order of their first occurrences in the document (an
    entry with a new key is appended, an entry with a key seen before leaves
    the key where it is), and the value under a key is the last entry of the
    document with that key. *)
Theorem C5_keyed_entries_overwrite_in_place (path : string) (config : yaml)
    (server : option string) (palette keymap : string) (w w' : world)
    (cfg : Config.self) :
  ConfigSchema.getSchema config = true →
  Config.init_resolve path config server palette keymap w = (Ok cfg, w') →
  overwritten_in_place (entries config "dashboards") (Config.dashboards cfg)
  ∧ overwritten_in_place (entries config "reviewkeys") (Config.reviewkeys cfg).
Proof.
  intros Hvalid Hrun. apply init_resolve_Ok in Hrun.
  destruct Hrun as (_ & _ & _ & _ & _ & _ & _ & _ & Hds & Hks & _).
  split; [by apply init_dashboards_Ok | by apply init_reviewkeys_Ok].
Qed.

End ordered.

(** ** Palettes and keymaps *)

Section named.
Context `{Environment}.


Lemma keymaps_for_merge : Config.keymaps_for = merge_for DEFAULT_KEYMAP.
Proof. reflexivity. Qed.

(** What the loop leaves under a name: the entries with that name, merged in
    document order into what was there, or into the base when the name is
    new. *)
Lemma merge_for_Ok (base : gmap hkey yaml) (ps : list yaml)
    (table final : gmap hkey (gmap hkey yaml)) :
  merge_for base ps table = Ok final →
  ∀ k, final !! k
       = match table !! k with
         | Some old => Some (overlay old (named k ps))
         | None =>
             match named k ps with
             | [] => None
             | d :: rest => Some (overlay (d ∪ base) rest)
             end
         end.
Proof.
  revert table. induction ps as [|p ps IH]; simpl; intros table Hrun k.
  - injection Hrun as <-. by destruct (table !! k).
  - step_result Hrun as name Hname. step_result Hrun as hk Hhk.
    step_result Hrun as table' Htable.
    destruct p as [| | | | |d]; try done.
    assert (entry_name (YDict d) = Ok hk) as Hentry
      by (unfold entry_name; by rewrite Hname).
    rewrite Hentry. rewrite (IH _ Hrun k).
    destruct (table !! hk) as [old|] eqn:Hold; simpl in Htable;
      injection Htable as <-.
    + destruct (decide (hk = k)) as [->|Hne].
      * by rewrite lookup_insert_eq, Hold.
      * by rewrite lookup_insert_ne.
    + destruct (decide (hk = k)) as [->|Hne].
      * by rewrite lookup_insert_eq, Hold.
      * by rewrite lookup_insert_ne.
Qed.

(** The loop returns on entries that are dicts with a string for [name]. *)
Lemma merge_for_total (base : gmap hkey yaml) (ps : list yaml)
    (table : gmap hkey (gmap hkey yaml)) :
  (∀ p, p ∈ ps → ∃ d n, p = YDict d ∧ d !! HStr "name" = Some (YStr n)) →
  ∃ final, merge_for base ps table = Ok final.
Proof.
  revert table. induction ps as [|p ps IH]; simpl; intros table Hps; [eauto|].
  destruct (Hps p) as (d & n & -> & Hn); [left|].
  simpl. rewrite Hn. simpl.
  destruct (table !! HStr n); simpl; apply IH; intros q Hq; apply Hps; by right.
Qed.

Lemma named_elem (k : hkey) (ps : list yaml) (p : yaml) :
  p ∈ ps → entry_name p = Ok k → ∃ d rest, named k ps = d :: rest.
Proof.
  induction ps as [|q ps IH]; [by intros ?%elem_of_nil|].
  intros [<-|Hin]%elem_of_cons Hk.
  - destruct p as [| | | | |d]; try done.
    unfold named. cbn [omap list_omap]. rewrite Hk, decide_True by done. eauto.
  - destruct (IH Hin Hk) as (d & rest & Hnamed). unfold named in *.
    cbn [omap list_omap]. rewrite Hnamed. case_match; eauto.
Qed.

(** [init_palettes], taken apart: the two built-in palettes, the loop over
    the document's entries, the selection. *)
Lemma init_palettes_Ok (config : yaml) (palette : string)
    (palettes : gmap hkey (gmap hkey yaml)) (selected : gmap hkey yaml) :
  ConfigSchema.getSchema config = true →
  Config.init_palettes config palette = Ok (palettes, selected) →
  merge_for DEFAULT_PALETTE (entries config "palettes")
    (<[HStr "light" := LIGHT_PALETTE ∪ DEFAULT_PALETTE]>
       (<[HStr "default" := DEFAULT_PALETTE]> ∅)) = Ok palettes
  ∧ ∃ name, dict_get config "palette" (YStr palette) = Ok name
            ∧ Config.named_getitem palettes name = Ok selected.
Proof.
  intros [Hps _]%schema_palettes Hrun. unfold Config.init_palettes in Hrun.
  cbn [Palette Palette_update mbind result_bind] in Hrun.
  rewrite (left_id_L ∅ (∪)) in Hrun.
  step_result Hrun as a Ha. step_result Hrun as l Hl.
  rewrite Ha in Hps. cbn [mbind result_bind] in Hps. rewrite Hl in Hps.
  injection Hps as ->.
  step_result Hrun as final Hfinal. step_result Hrun as name Hname.
  step_result Hrun as pal Hpal. injection Hrun as <- <-. eauto.
Qed.

(** The same for [init_keymaps], which moreover returns whenever the selected
    name is there. *)
Lemma init_keymaps_run (config : yaml) (keymap : string) :
  ConfigSchema.getSchema config = true →
  ∃ keymaps,
    merge_for DEFAULT_KEYMAP (entries config "keymaps")
      (<[HStr "vi" := VI_KEYMAP ∪ DEFAULT_KEYMAP]>
         (<[HStr "default" := DEFAULT_KEYMAP]> ∅)) = Ok keymaps
    ∧ Config.init_keymaps config keymap
      = (name ← dict_get config "keymap" (YStr keymap);
         selected ← Config.named_getitem keymaps name;
         Ok (keymaps, selected)).
Proof.
  intros Hvalid. destruct (schema_keymaps _ Hvalid) as [Hps Hall].
  destruct (merge_for_total DEFAULT_KEYMAP (entries config "keymaps")
              (<[HStr "vi" := VI_KEYMAP ∪ DEFAULT_KEYMAP]>
                 (<[HStr "default" := DEFAULT_KEYMAP]> ∅))) as [keymaps Hloop].
  { intros p Hp. by apply schema_keymap, Hall. }
  exists keymaps. split; [done|]. unfold Config.init_keymaps.
  cbn [KeyMap KeyMap_update mbind result_bind].
  rewrite (left_id_L ∅ (∪)).
  destruct (dict_get config "keymaps" (YList [])) as [a|e]; [|done].
  cbn [mbind result_bind] in Hps |- *. rewrite Hps. cbn [mbind result_bind].
  rewrite keymaps_for_merge, Hloop. done.
Qed.

(** C8: for an accepted document, a keymap entry whose name is neither
    [default] nor [vi] is in the collection of keymaps under its name, as the
    base keymap with the document's entries of that name merged in, and
    selecting that name returns it; selecting a name that neither the
    built-ins nor the document's entries have fails with a [KeyError], which
    is a [LookupError]. *)
Theorem C8_keymap_appended_and_selectable (config : yaml) (keymap n : string) :
  ConfigSchema.getSchema config = true →
  n ≠ "default" → n ≠ "vi" →
  (∀ keymaps selected p,
     Config.init_keymaps config keymap = Ok (keymaps, selected) →
     p ∈ entries config "keymaps" → entry_name p = Ok (HStr n) →
     ∃ d rest, named (HStr n) (entries config "keymaps") = d :: rest
               ∧ keymaps !! HStr n = Some (overlay (d ∪ DEFAULT_KEYMAP) rest))
  ∧ (dict_get config "keymap" (YStr keymap) = Ok (YStr n) →
     match named (HStr n) (entries config "keymaps") with
     | d :: rest =>
         ∃ keymaps,
           Config.init_keymaps config keymap
           = Ok (keymaps, overlay (d ∪ DEFAULT_KEYMAP) rest)
           ∧ keymaps !! HStr n = Some (overlay (d ∪ DEFAULT_KEYMAP) rest)
     | [] =>
         Config.init_keymaps config keymap = Raise (KeyError (YStr n))
         ∧ is_LookupError (KeyError (YStr n)) = true
     end).
Proof.
  intros Hvalid Hdefault Hvi.
  destruct (init_keymaps_run config keymap Hvalid) as (keymaps & Hloop & Hinit).
  pose proof (merge_for_Ok _ _ _ _ Hloop (HStr n)) as Hn.
  rewrite !lookup_insert_ne, lookup_empty in Hn by congruence.
  split.
  - intros keymaps' selected p Hrun Hp Hname.
    destruct (named_elem _ _ _ Hp Hname) as (d & rest & Hnamed).
    exists d, rest. split; [done|]. rewrite Hnamed in Hn.
    rewrite Hinit in Hrun. step_result Hrun as name Hsel.
    step_result Hrun as sel Hget. by injection Hrun as <- <-.
  - intros Hsel. rewrite Hinit, Hsel. cbn [mbind result_bind].
    unfold Config.named_getitem. cbn [hash_key mbind result_bind].
    destruct (named (HStr n) (entries config "keymaps")) as [|d rest];
      rewrite Hn; [done|]. by exists keymaps.
Qed.

(** C9: for an accepted document with one palette entry named [default], the
    resolved palette of that name is the built-in empty palette with the
    entry merged into it: a key of the entry has the entry's value, any other
    key has the built-in value; it is the selected palette when [default] is
    the name selected. *)
Theorem C9_default_palette_overlaid (path : string) (config : yaml)
    (server : option string) (palette keymap : string) (w w' : world)
    (cfg : Config.self) (d : gmap hkey yaml) :
  ConfigSchema.getSchema config = true →
  named (HStr "default") (entries config "palettes") = [d] →
  Config.init_resolve path config server palette keymap w = (Ok cfg, w') →
  ∃ resolved,
    Config.palettes cfg !! HStr "default" = Some resolved
    ∧ (∀ k, resolved !! k
            = match d !! k with
              | Some x => Some x
              | None => DEFAULT_PALETTE !! k
              end)
    ∧ (dict_get config "palette" (YStr palette) = Ok (YStr "default") →
       Config.palette cfg = resolved).
Proof.
  intros Hvalid Hnamed Hrun. apply init_resolve_Ok in Hrun.
  destruct Hrun as (_ & _ & _ & _ & _ & Hpalettes & _).
  apply init_palettes_Ok in Hpalettes as (Hloop & name & Hsel & Hget);
    [|done].
  pose proof (merge_for_Ok _ _ _ _ Hloop (HStr "default")) as Hdefault.
  rewrite lookup_insert_ne, lookup_insert_eq, Hnamed in Hdefault by done.
  exists (d ∪ DEFAULT_PALETTE). split_and!; [done|..].
  - intros k. rewrite lookup_union.
    by destruct (d !! k), (DEFAULT_PALETTE !! k).
  - intros Hname. rewrite Hname in Hsel. injection Hsel as <-.
    unfold Config.named_getitem in Hget. cbn [hash_key mbind result_bind] in Hget.
    rewrite Hdefault in Hget. by injection Hget as <-.
Qed.

End named.

(** ** Comment links and the size column *)

Section plain.
Context `{Environment}.

Lemma commentlinks_for_Ok (cs : list yaml) (links : list commentlink) :
  Config.commentlinks_for cs = Ok links →
  Forall2 (λ c link, CommentLink c = Ok link) cs links.
Proof.
  revert links. induction cs as [|c cs IH]; simpl; intros links Hrun.
  - injection Hrun as <-. constructor.
  - step_result Hrun as link Hlink. step_result Hrun as rest Hrest.
    injection Hrun as <-. constructor; auto.
Qed.

Lemma init_size_column_Ok (config size_column : yaml) :
  Config.init_size_column config = Ok size_column →
  ∃ sc,
    size_column = YDict sc
    ∧ sc !! HStr "type" = Some (default (YStr "graph") (document_type config))
    ∧ sc !! HStr "thresholds"
      = Some (match document_thresholds config with
              | Some given => given
              | None =>
                  if str_eq "graph"
                       (default (YStr "graph") (document_type config))
                  then YList [YInt 1; YInt 10; YInt 100; YInt 1000]
                  else YList [YInt 1; YInt 10; YInt 100; YInt 200; YInt 400;
                              YInt 600; YInt 800; YInt 1000]
              end).
Proof.
  unfold Config.init_size_column. intros Hrun.
  step_result Hrun as doc Hdoc. step_result Hrun as type Htype.
  destruct doc as [| | | | |d]; try done.
  assert (document_thresholds config = d !! HStr "thresholds"
          ∧ document_type config = d !! HStr "type") as [-> ->].
  { destruct config as [| | | | |m]; try done. simpl in Hdoc |- *.
    destruct (m !! HStr "size-column"); by simplify_eq. }
  assert (type = default (YStr "graph") (d !! HStr "type")) as Hdefault.
  { simpl in Htype. destruct (d !! HStr "type"); by simplify_eq. }
  rewrite <- Hdefault. clear Hdefault.
  simpl in Hrun. rewrite lookup_insert_eq in Hrun. simpl in Hrun.
  rewrite !lookup_insert_ne in Hrun by done.
  exists (<[HStr "thresholds" :=
             match d !! HStr "thresholds" with
             | Some given => given
             | None =>
                 if str_eq "graph" type
                 then YList [YInt 1; YInt 10; YInt 100; YInt 1000]
                 else YList [YInt 1; YInt 10; YInt 100; YInt 200; YInt 400;
                             YInt 600; YInt 800; YInt 1000]
             end]> (<[HStr "type" := type]> d)).
  rewrite lookup_insert_eq, lookup_insert_ne, lookup_insert_eq by done.
  split_and!; try done.
  destruct (str_eq "graph" type), (d !! HStr "thresholds"); simpl in Hrun;
    by simplify_eq.
Qed.


(** C7: for an accepted document, the resolved comment links are the links
    made of the document's rules, one for each rule and in document order,
    followed by the link made of the bare-URL rule, which is last; nothing is
    merged: the list is one longer than the document's. *)
Theorem C7_commentlinks_in_order_then_bare_url (path : string) (config : yaml)
    (server : option string) (palette keymap : string) (w w' : world)
    (cfg : Config.self) :
  ConfigSchema.getSchema config = true →
  Config.init_resolve path config server palette keymap w = (Ok cfg, w') →
  ∃ links bare,
    Config.commentlinks cfg = links ++ [bare]
    ∧ Forall2 (λ c link, CommentLink c = Ok link)
        (entries config "commentlinks") links
    ∧ CommentLink Config.bare_url_rule = Ok bare
    ∧ length (Config.commentlinks cfg)
      = S (length (entries config "commentlinks")).
Proof.
  intros [Hcs _]%schema_commentlinks Hrun. apply init_resolve_Ok in Hrun.
  destruct Hrun as (_ & _ & _ & _ & _ & _ & _ & Hlinks & _).
  unfold Config.init_commentlinks in Hlinks.
  step_result Hlinks as a Ha. step_result Hlinks as l Hl.
  rewrite Ha in Hcs. cbn [mbind result_bind] in Hcs. rewrite Hl in Hcs.
  injection Hcs as ->.
  step_result Hlinks as links Hfor. step_result Hlinks as bare Hbare.
  injection Hlinks as <-. apply commentlinks_for_Ok in Hfor.
  exists links, bare. split_and!; try done.
  rewrite length_app, (Forall2_length _ _ _ Hfor). simpl. lia.
Qed.

(** C10: the resolved size column has the type of the document's section,
    or [graph] when the document gives none, and the thresholds of the
    document when the document gives them; when it gives none, it has
    [1, 10, 100, 1000] if the resolved type is [graph] and
    [1, 10, 100, 200, 400, 600, 800, 1000] if it is anything else. *)
Theorem C10_size_column_thresholds (path : string) (config : yaml)
    (server : option string) (palette keymap : string) (w w' : world)
    (cfg : Config.self) :
  Config.init_resolve path config server palette keymap w = (Ok cfg, w') →
  ∃ size_column,
    Config.size_column cfg = YDict size_column
    ∧ size_column !! HStr "type"
      = Some (default (YStr "graph") (document_type config))
    ∧ size_column !! HStr "thresholds"
      = Some (match document_thresholds config with
              | Some given => given
              | None =>
                  if str_eq "graph"
                       (default (YStr "graph") (document_type config))
                  then YList [YInt 1; YInt 10; YInt 100; YInt 1000]
                  else YList [YInt 1; YInt 10; YInt 100; YInt 200; YInt 400;
                              YInt 600; YInt 800; YInt 1000]
              end).
Proof.
  intros Hrun. apply init_resolve_Ok in Hrun.
  destruct Hrun as (_ & _ & _ & _ & _ & _ & _ & _ & _ & _ & Hsize).
  by apply init_size_column_Ok.
Qed.

End plain.

(** ** The example document, resolved *)

Lemma example_config_valid : ConfigSchema.getSchema example_config = true.
Proof. vm_compute. reflexivity. Qed.

Lemma example_resolution_returns :
  ∃ cfg w',
    Config.init_resolve (H := example_env) "/home/alice/.hubtty.yaml"
      example_config None "default" "default" example_world = (Ok cfg, w').
Proof.
  destruct (Config.init_resolve (H := example_env) "/home/alice/.hubtty.yaml"
              example_config None "default" "default" example_world)
    as [[cfg|e] w'] eqn:Hrun; [by eauto|].
  exfalso.
  assert (is_Ok (fst (Config.init_resolve (H := example_env)
                        "/home/alice/.hubtty.yaml" example_config None
                        "default" "default" example_world)) = true) as Hok
    by (vm_compute; reflexivity).
  rewrite Hrun in Hok. discriminate Hok.
Qed.

(** The constructor returns on the world that has the example document at
    the legacy path. *)
Example example_init_returns :
  is_Ok (fst (Config.init (H := example_env) None "default" "default" None
                example_world)) = true.
Proof. vm_compute. reflexivity. Qed.

Example example_first_occurrences :
  first_occurrences [HStr "f2"; HStr "f3"; HStr "f2"] = [HStr "f2"; HStr "f3"].
Proof. reflexivity. Qed.

(** The keys of the three dashboards are [f2], [f3], [f2]: the resolved
    dashboards have [f2] first, with the third dashboard under it. *)
Example example_dashboards :
  match Config.init_dashboards example_config with
  | Ok od => od
  | Raise _ => []
  end
  = [(HStr "f2", example_dashboard "all" "f2");
     (HStr "f3", example_dashboard "team" "f3")].
Proof. vm_compute. reflexivity. Qed.

Lemma C5_keyed_entries_overwrite_in_place_witness :
  let H := example_env in
  ConfigSchema.getSchema example_config = true
  ∧ ∃ cfg w',
      Config.init_resolve "/home/alice/.hubtty.yaml" example_config None
        "default" "default" example_world = (Ok cfg, w')
      ∧ overwritten_in_place (entries example_config "dashboards")
          (Config.dashboards cfg)
      ∧ overwritten_in_place (entries example_config "reviewkeys")
          (Config.reviewkeys cfg).
Proof.
  intros H. split; [exact example_config_valid|].
  destruct example_resolution_returns as (cfg & w' & Hrun).
  exists cfg, w'. split; [exact Hrun|].
  exact (C5_keyed_entries_overwrite_in_place _ _ _ _ _ _ _ _
           example_config_valid Hrun).
Defined.

Lemma C7_commentlinks_in_order_then_bare_url_witness :
  let H := example_env in
  ConfigSchema.getSchema example_config = true
  ∧ ∃ cfg w',
      Config.init_resolve "/home/alice/.hubtty.yaml" example_config None
        "default" "default" example_world = (Ok cfg, w')
      ∧ ∃ links bare,
          Config.commentlinks cfg = links ++ [bare]
          ∧ Forall2 (λ c link, CommentLink c = Ok link)
              (entries example_config "commentlinks") links
          ∧ CommentLink Config.bare_url_rule = Ok bare
          ∧ length (Config.commentlinks cfg)
            = S (length (entries example_config "commentlinks")).
Proof.
  intros H. split; [exact example_config_valid|].
  destruct example_resolution_returns as (cfg & w' & Hrun).
  exists cfg, w'. split; [exact Hrun|].
  exact (C7_commentlinks_in_order_then_bare_url _ _ _ _ _ _ _ _
           example_config_valid Hrun).
Defined.

Lemma C8_keymap_appended_and_selectable_witness :
  let H := example_env in
  (∃ d keymaps,
     named (HStr "emacs") (entries example_config "keymaps") = [d]
     ∧ Config.init_keymaps example_config "emacs"
       = Ok (keymaps, overlay (d ∪ DEFAULT_KEYMAP) [])
     ∧ keymaps !! HStr "emacs" = Some (overlay (d ∪ DEFAULT_KEYMAP) []))
  ∧ Config.init_keymaps example_config "dvorak"
    = Raise (KeyError (YStr "dvorak"))
  ∧ is_LookupError (KeyError (YStr "dvorak")) = true.
Proof.
  intros H.
  assert (length (named (HStr "emacs") (entries example_config "keymaps"))
          = 1%nat) as Hemacs by (vm_compute; reflexivity).
  assert (named (HStr "dvorak") (entries example_config "keymaps") = [])
    as Hdvorak by (vm_compute; reflexivity).
  assert (dict_get example_config "keymap" (YStr "emacs") = Ok (YStr "emacs"))
    as Hsel1 by (vm_compute; reflexivity).
  assert (dict_get example_config "keymap" (YStr "dvorak") = Ok (YStr "dvorak"))
    as Hsel2 by (vm_compute; reflexivity).
  pose proof (proj2 (C8_keymap_appended_and_selectable example_config "emacs"
                       "emacs" example_config_valid ltac:(discriminate)
                       ltac:(discriminate)) Hsel1) as Hpresent.
  pose proof (proj2 (C8_keymap_appended_and_selectable example_config "dvorak"
                       "dvorak" example_config_valid ltac:(discriminate)
                       ltac:(discriminate)) Hsel2) as Habsent.
  rewrite Hdvorak in Habsent. split; [|exact Habsent].
  destruct (named (HStr "emacs") (entries example_config "keymaps"))
    as [|d [|d' rest]]; [discriminate Hemacs | | discriminate Hemacs].
  destruct Hpresent as (keymaps & Hinit & Hlookup). by exists d, keymaps.
Defined.

Lemma C9_default_palette_overlaid_witness :
  let H := example_env in
  ConfigSchema.getSchema example_config = true
  ∧ ∃ d cfg w',
      named (HStr "default") (entries example_config "palettes") = [d]
      ∧ Config.init_resolve "/home/alice/.hubtty.yaml" example_config None
          "default" "default" example_world = (Ok cfg, w')
      ∧ ∃ resolved,
          Config.palettes cfg !! HStr "default" = Some resolved
          ∧ (∀ k, resolved !! k
                  = match d !! k with
                    | Some x => Some x
                    | None => DEFAULT_PALETTE !! k
                    end)
          ∧ (dict_get example_config "palette" (YStr "default")
             = Ok (YStr "default") →
             Config.palette cfg = resolved).
Proof.
  intros H. split; [exact example_config_valid|].
  assert (length (named (HStr "default") (entries example_config "palettes"))
          = 1%nat) as Hlen by (vm_compute; reflexivity).
  destruct (named (HStr "default") (entries example_config "palettes"))
    as [|d [|d' rest]] eqn:Hnamed;
    [discriminate Hlen | | discriminate Hlen].
  destruct example_resolution_returns as (cfg & w' & Hrun).
  exists d, cfg, w'. split; [reflexivity|]. split; [exact Hrun|].
  exact (C9_default_palette_overlaid _ _ _ _ _ _ _ _ _
           example_config_valid Hnamed Hrun).
Defined.

(** The default palette of the example: the header is the document's, the
    footer is the built-in one. *)
Example example_default_palette :
  match Config.init_palettes (H := example_env) example_config "default" with
  | Ok (_, selected) =>
      (selected !! HStr "header", selected !! HStr "footer")
  | Raise _ => (None, None)
  end
  = (Some (YList [YStr "yellow"; YStr "black"]),
     Some (YList [YStr "white"; YStr "black"])).
Proof. vm_compute. reflexivity. Qed.

Lemma C10_size_column_thresholds_witness :
  let H := example_env in
  (document_type example_config = Some (YStr "number")
   ∧ document_thresholds example_config = None)
  ∧ ∃ cfg w',
      Config.init_resolve "/home/alice/.hubtty.yaml" example_config None
        "default" "default" example_world = (Ok cfg, w')
      ∧ ∃ size_column,
          Config.size_column cfg = YDict size_column
          ∧ size_column !! HStr "type" = Some (YStr "number")
          ∧ size_column !! HStr "thresholds"
            = Some (YList [YInt 1; YInt 10; YInt 100; YInt 200;
                           YInt 400; YInt 600; YInt 800; YInt 1000]).
Proof.
  intros H.
  assert (document_type example_config = Some (YStr "number")) as Htype
    by (vm_compute; reflexivity).
  assert (document_thresholds example_config = None) as Hnone
    by (vm_compute; reflexivity).
  split; [by split|].
  destruct example_resolution_returns as (cfg & w' & Hrun).
  exists cfg, w'. split; [exact Hrun|].
  pose proof (C10_size_column_thresholds _ _ _ _ _ _ _ _ Hrun) as Hsize.
  rewrite Htype, Hnone in Hsize. exact Hsize.
Defined.

(** The size column of the example, of type [number] and without thresholds,
    and the size column of a document that has none. *)
Example example_size_column :
  Config.init_size_column example_config
  = Ok (dict [("type", YStr "number");
              ("thresholds", YList [YInt 1; YInt 10; YInt 100; YInt 200;
                                    YInt 400; YInt 600; YInt 800; YInt 1000])])
  ∧ Config.init_size_column (dict [])
    = Ok (dict [("type", YStr "graph");
                ("thresholds", YList [YInt 1; YInt 10; YInt 100; YInt 1000])]).
Proof. split; vm_compute; reflexivity. Qed.

(** * Further properties of the code *)

(** ** Runs *)







(** ** The schema *)







(** ** Locating, loading and checking the document *)

Section constructor.
Context `{Environment}.


(** The empty document, which loads as [None], is not accepted. *)
Example empty_document_rejected : ConfigSchema.getSchema YNone = false.
Proof. reflexivity. Qed.


End constructor.



(** ** Selecting the profile *)

Section profile.
Context `{Environment}.

















End profile.









(** ** The token *)

Section token.
Context `{Environment}.


End token.



(** ** Palettes and filters *)

Section collections.
Context `{Environment}.






End collections.



(** ** Resolution as a whole *)

Section returns.
Context `{Environment}.
















End returns.



